(** * Zone reconciliation of the DNS exporter (pkg/providers/dns/command_create_zone.go)

    A shallow embedding of the create-zone command: the scan of the
    existing zone configuration file, the subtraction of the recordsets it
    already declares, the choice of the inventory, the layout check and the
    import script.  Go maps are [gmap]s, Go strings are byte strings
    ([string]), the file system is a finite map from paths to nodes and an
    open [*os.File] is a path with an offset. *)

From Stdlib Require Import Ascii ZArith Lia.
From Stdlib Require String.
From stdpp Require Import base option list gmap fin_maps strings.

Set Default Proof Using "Type".

Local Open Scope nat_scope.

(** String concatenation unfolds on a literal left operand. *)
#[local] Arguments String.append !s1 s2 : simpl nomatch.

(** ** Go strings *)

Module GoStrings.

(** The byte [0x22] (the double quote) and the byte [0x0a] (the newline). *)
Definition dquote : string := String "034"%char EmptyString.
Definition nl : string := String "010"%char EmptyString.

(** [strings.HasPrefix s prefix]. *)
Fixpoint HasPrefix (s prefix : string) {struct prefix} : bool :=
  match prefix with
  | EmptyString => true
  | String a prefix' =>
      match s with
      | EmptyString => false
      | String b s' => if Ascii.eqb a b then HasPrefix s' prefix' else false
      end
  end.

(** [strings.Contains s substr]: [substr] occurs in [s] at some offset. *)
Fixpoint Contains (s substr : string) : bool :=
  HasPrefix s substr ||
  match s with
  | EmptyString => false
  | String _ s' => Contains s' substr
  end.

(** The slice expression [s[lo:hi]] for [lo <= hi <= len(s)]. *)
Definition slice (s : string) (lo hi : nat) : string :=
  String.substring lo (hi - lo) s.

(** [n] copies of the byte [c]. *)
Fixpoint replicate_byte (n : nat) (c : ascii) : string :=
  match n with
  | O => EmptyString
  | S n' => String c (replicate_byte n' c)
  end.

End GoStrings.
Import GoStrings.

(** ** Data model *)

(** [type Types []string] *)
Abbreviation Types := (list string).

(** [type zoneImportListStruct struct { Zone string; Recordsets map[string]Types }] *)
Record zoneImportListStruct := mkImportList {
  Zone : string;
  Recordsets : gmap string Types
}.

(** [type fetchConfigStruct struct { ConfigOnly, ModSegment, NamesOnly bool }] *)
Record fetchConfigStruct := mkFetchConfig {
  ConfigOnly : bool;
  ModSegment : bool;
  NamesOnly : bool
}.

(** Terraform resource names (package variables). *)
Definition zoneResource : string := "akamai_dns_zone".
Definition recordsetResource : string := "akamai_dns_record".
Definition moduleFolder : string := "modules".

(** ** The reconciliation loop *)

Section Reconcile.

(** [createUniqueRecordsetName(zoneName, zname, ntype)] is declared in a
    file of the package that is not part of the sources at hand; it is a
    parameter of the development. *)
Variable createUniqueRecordsetName : string → string → string → string.

(** The token the loop looks for: the name between two double quotes. *)
Definition quoted (normalName : string) : string :=
  dquote +:+ normalName +:+ dquote.

(** The test of line 986: [strings.Contains] of the text and the quoted
    name. *)
Definition declaredIn (tfConfig zoneName zname ntype : string) : bool :=
  Contains tfConfig (quoted (createUniqueRecordsetName zoneName zname ntype)).

(** One pass of the inner loop (lines 984-992): [typeMap[ntype] = true]
    and [append(revisedTypeList, ntype)] for a type that is not found. *)
Definition reviseStep (tfConfig zoneName zname : string)
    (acc : gmap string bool * Types) (ntype : string) : gmap string bool * Types :=
  if negb (declaredIn tfConfig zoneName zname ntype)
  then (<[ntype := true]> acc.1, acc.2 ++ [ntype])
  else acc.

(** The inner loop over [typeList], from [typeMap = {}] and
    [revisedTypeList = []] (lines 982-992). *)
Definition reviseTypes (tfConfig zoneName zname : string) (typeList : Types)
    : gmap string bool * Types :=
  foldl (reviseStep tfConfig zoneName zname) (∅, []) typeList.

(** One pass of the outer loop (lines 981-995): the two assignments
    [zoneImportList.Recordsets[zname] = revisedTypeList] and
    [zoneTypeMap[zname] = typeMap]. *)
Definition reconcileStep (tfConfig zoneName : string)
    (acc : gmap string Types * gmap string (gmap string bool))
    (entry : string * Types) : gmap string Types * gmap string (gmap string bool) :=
  let r := reviseTypes tfConfig zoneName entry.1 entry.2 in
  (<[entry.1 := r.2]> acc.1, <[entry.1 := r.1]> acc.2).

(** The outer loop.  Go visits the entries of a map in an unspecified
    order; [order] is the order of the visit, a permutation of the
    entries of the map the loop starts from. *)
Definition reconcileLoop (tfConfig zoneName : string) (order : list (string * Types))
    (recordsets : gmap string Types) : gmap string Types * gmap string (gmap string bool) :=
  foldl (reconcileStep tfConfig zoneName) (recordsets, ∅) order.

(** The loop with the entries taken in the order of [map_to_list]. *)
Definition reconcileRecordsets (tfConfig zoneName : string)
    (recordsets : gmap string Types) : gmap string Types * gmap string (gmap string bool) :=
  reconcileLoop tfConfig zoneName (map_to_list recordsets) recordsets.

End Reconcile.

(** ** Files, handles and the state of the command *)

(** A path names a directory or a regular file with its bytes.  Access
    rights and the parents of a path are not modelled. *)
Inductive Node :=
| Dir
| File (content : string).

Abbreviation FS := (gmap string Node).

(** An open [*os.File]: the path it was opened at and its offset. *)
Record Handle := mkHandle {
  h_path : string;
  h_off : nat
}.

(** A Go [error] that is not nil, with its message. *)
Inductive error := Err (msg : string).

Definition EISDIR : error := Err "is a directory".
Definition ENOENT : error := Err "no such file or directory".
Definition EBADF : error := Err "bad file descriptor".

(** [info.Size()] of [os.Stat]. *)
Definition node_size (n : Node) : nat :=
  match n with
  | Dir => 0
  | File c => String.length c
  end.

(** [os.Stat(name)]: [None] is the error of a path that does not exist. *)
Definition os_Stat (name : string) (fs : FS) : option Node := fs !! name.

(** [os.OpenFile(name, os.O_CREATE|os.O_RDWR, 0644)]: an existing file is
    opened as it is, a missing one is created empty; the offset is 0.
    The directory of a missing file is taken to be there and writable:
    the operating system also fails the call when it is not, which this
    definition leaves out, so the properties of a missing file are
    stated for a call that returns no error. *)
Definition os_OpenFile_create_rdwr (name : string) (fs : FS) : (error + Handle) * FS :=
  match fs !! name with
  | Some Dir => (inl EISDIR, fs)
  | Some (File _) => (inr (mkHandle name 0), fs)
  | None => (inr (mkHandle name 0), <[name := File EmptyString]> fs)
  end.

(** [os.Create(name)]: the file is created or truncated.  As for
    [os.OpenFile], the directory of the file is taken to be there and
    writable; the properties of the files written are stated for a step
    that ends well. *)
Definition os_Create (name : string) (fs : FS) : (error + Handle) * FS :=
  match fs !! name with
  | Some Dir => (inl EISDIR, fs)
  | _ => (inr (mkHandle name 0), <[name := File EmptyString]> fs)
  end.

(** [ioutil.ReadFile(name)]. *)
Definition ioutil_ReadFile (name : string) (fs : FS) : error + string :=
  match fs !! name with
  | Some (File c) => inr c
  | Some Dir => inl EISDIR
  | None => inl ENOENT
  end.

(** [h.Read(buf)] with [len(buf) = n]: the bytes from the offset on, at
    most [n] of them, and the handle moved past them. *)
Definition File_Read (h : Handle) (n : nat) (fs : FS) : (error + string) * Handle :=
  match fs !! h_path h with
  | Some (File c) =>
      let data := String.substring (h_off h) n c in
      (inr data, mkHandle (h_path h) (h_off h + String.length data))
  | _ => (inl EBADF, h)
  end.

(** [h.Seek(off, 0)], from the start of the file. *)
Definition File_Seek_start (h : Handle) (off : nat) : Handle :=
  mkHandle (h_path h) off.

(** The bytes of a file after [data] is written at offset [off]: bytes
    under the written range are replaced, bytes after it stay, and a gap
    between the end of the file and [off] reads as zero bytes. *)
Definition writeAt (content : string) (off : nat) (data : string) : string :=
  slice content 0 off
  +:+ replicate_byte (off - String.length content) "000"%char
  +:+ data
  +:+ slice content (off + String.length data) (String.length content).

(** [h.Write(data)] on a handle opened without [O_APPEND]. *)
Definition File_Write (h : Handle) (data : string) (fs : FS) : (error + nat) * Handle * FS :=
  match fs !! h_path h with
  | Some (File c) =>
      (inr (String.length data),
       mkHandle (h_path h) (h_off h + String.length data),
       <[h_path h := File (writeAt c (h_off h) data)]> fs)
  | _ => (inl EBADF, h, fs)
  end.

(** The flags of the command line, as [CmdCreateZone] stores them in the
    package variables before it does anything else (lines 660-686). *)
Record Flags := mkFlags {
  zoneName : string;
  tfWorkPath : string;
  createImportList : bool;
  createConfig : bool;
  importScript : bool;
  fetchConfig : fetchConfigStruct
}.

(** The package variables the command writes while it runs, and the file
    system.  A nil pointer is [None]. *)
Record State := mkState {
  fs : FS;
  recordNames : list string;
  contractid : string;
  fullZoneImportList : option zoneImportListStruct;
  fullZoneConfigMap : gmap string Types;
  modulePath : string;
  zoneTFfileHandle : option Handle;
  zonetfConfig : string
}.

Definition set_fs (f : FS) (st : State) : State :=
  mkState f (recordNames st) (contractid st) (fullZoneImportList st)
    (fullZoneConfigMap st) (modulePath st) (zoneTFfileHandle st) (zonetfConfig st).
Definition set_recordNames (l : list string) (st : State) : State :=
  mkState (fs st) l (contractid st) (fullZoneImportList st)
    (fullZoneConfigMap st) (modulePath st) (zoneTFfileHandle st) (zonetfConfig st).
Definition set_contractid (c : string) (st : State) : State :=
  mkState (fs st) (recordNames st) c (fullZoneImportList st)
    (fullZoneConfigMap st) (modulePath st) (zoneTFfileHandle st) (zonetfConfig st).
Definition set_fullZoneImportList (l : option zoneImportListStruct) (st : State) : State :=
  mkState (fs st) (recordNames st) (contractid st) l
    (fullZoneConfigMap st) (modulePath st) (zoneTFfileHandle st) (zonetfConfig st).
Definition set_fullZoneConfigMap (m : gmap string Types) (st : State) : State :=
  mkState (fs st) (recordNames st) (contractid st) (fullZoneImportList st)
    m (modulePath st) (zoneTFfileHandle st) (zonetfConfig st).
Definition set_modulePath (p : string) (st : State) : State :=
  mkState (fs st) (recordNames st) (contractid st) (fullZoneImportList st)
    (fullZoneConfigMap st) p (zoneTFfileHandle st) (zonetfConfig st).
Definition set_zoneTFfileHandle (h : option Handle) (st : State) : State :=
  mkState (fs st) (recordNames st) (contractid st) (fullZoneImportList st)
    (fullZoneConfigMap st) (modulePath st) h (zonetfConfig st).
Definition set_zonetfConfig (t : string) (st : State) : State :=
  mkState (fs st) (recordNames st) (contractid st) (fullZoneImportList st)
    (fullZoneConfigMap st) (modulePath st) (zoneTFfileHandle st) t.

(** How a step of the command ends: it goes on with a value, it returns
    [cli.Exit(msg, code)], or it panics. *)
Inductive Outcome (A : Type) :=
| Ok (a : A)
| Exit (msg : string) (code : Z)
| Panic.
Arguments Ok {A} a.
Arguments Exit {A} msg code.
Arguments Panic {A}.

(** Steps thread the state; what a step has written stays written when it
    exits. *)
Definition M (A : Type) : Type := State → Outcome A * State.

Definition ret {A} (a : A) : M A := λ st, (Ok a, st).

Definition bind {A B} (c : M A) (k : A → M B) : M B := λ st,
  match c st with
  | (Ok a, st') => k a st'
  | (Exit msg code, st') => (Exit msg code, st')
  | (Panic, st') => (Panic, st')
  end.

#[global] Instance M_ret : MRet M := @ret.
#[global] Instance M_bind : MBind M := λ A B k c, bind c k.

(** [return cli.Exit(color.RedString(msg), 1)] *)
Definition cli_Exit {A} (msg : string) : M A := λ st, (Exit msg 1%Z, st).
Definition panic {A} : M A := λ st, (Panic, st).
Definition get {A} (proj : State → A) : M A := λ st, (Ok (proj st), st).
Definition modify (f : State → State) : M unit := λ st, (Ok tt, f st).
(** An operation of the file system, run on the [fs] of the state. *)
Definition onFS {A} (op : FS → A * FS) : M A := λ st,
  let r := op (fs st) in (Ok r.1, set_fs r.2 st).
(** A function of the package that may touch every package variable
    and the file system, run as a step. *)
Definition onState {A} (op : State → A * State) : M A := λ st,
  let r := op st in (Ok r.1, r.2).

(** ** Sample instances of the parameters

    The examples that close the development run the definitions on
    concrete inputs; these are the values they give to the parameters. *)

Module Sample.

(** A name for a recordset resource: zone, record name and type joined
    by underscores. *)
Definition recordsetName (zoneName zname ntype : string) : string :=
  zoneName +:+ "_" +:+ zname +:+ "_" +:+ ntype.

(** File names under a work path written with its trailing slash. *)
Definition tfFilename (resourceName workPath : string) : string :=
  workPath +:+ resourceName +:+ ".tf".
Definition importListFilename (workPath resourceName : string) : string :=
  workPath +:+ resourceName +:+ "_resources.json".
Definition join (dir name : string) : string := dir +:+ name.
Definition join3 (dir folder name : string) : string := dir +:+ folder +:+ "/" +:+ name.

(** A run of the config step alone, on the flat layout. *)
Definition configFlags : Flags :=
  mkFlags "example.com" "./" false true false (mkFetchConfig false false false).

(** The inventory of one name with two types. *)
Definition wwwInventory : gmap string Types := {[ "www" := ["A"; "AAAA"] ]}.

(** An inventory of two names with one type each. *)
Definition twoNames : gmap string Types :=
  <["example.com" := ["A"]]> (<["www.example.com" := ["CNAME"]]> ∅).

(** A configuration text that declares the [A] record of [www]. *)
Definition declaresA : string :=
  "resource " +:+ quoted "akamai_dns_record" +:+ " "
    +:+ quoted "example_com_www_A" +:+ " {}" +:+ nl.

(** The declaration of the [AAAA] record of [www]. *)
Definition declaresAAAA : string :=
  "resource " +:+ quoted "akamai_dns_record" +:+ " "
    +:+ quoted "example_com_www_AAAA" +:+ " {}" +:+ nl.

(** The same declaration of the [A] record as the last bytes of a
    file, with no newline after the closing brace. *)
Definition declaresA_noNewline : string :=
  "resource " +:+ quoted "akamai_dns_record" +:+ " "
    +:+ quoted "example_com_www_A" +:+ " {}".

(** A file that ends with the quoted name of the [A] record. *)
Definition endsWithQuotedA : string :=
  "resource " +:+ quoted "akamai_dns_record" +:+ " " +:+ quoted "example_com_www_A".

(** A modularized configuration: it holds both markers. *)
Definition modularText : string :=
  "module " +:+ quoted "example_com_www" +:+ " { zonename = local.zone }" +:+ nl.

(** Dots become underscores in resource names. *)
Fixpoint normalize (name : string) : string :=
  match name with
  | EmptyString => EmptyString
  | String c rest =>
      String (if Ascii.eqb c "."%char then "_"%char else c) (normalize rest)
  end.

(** The inventory of [www] under its zone, and the side file that
    holds it. *)
Definition persisted : zoneImportListStruct := mkImportList "example.com" wwwInventory.
Definition sideFileText : string :=
  "{" +:+ quoted "Zone" +:+ ":" +:+ quoted "example.com" +:+ ","
    +:+ quoted "Recordsets" +:+ ":{" +:+ quoted "www" +:+ ":["
    +:+ quoted "A" +:+ "," +:+ quoted "AAAA" +:+ "]}}".

(** A decoder that knows the side file of the examples. *)
Definition unmarshalImportList (data : string) : error + zoneImportListStruct :=
  if String.eqb data sideFileText then inr persisted
  else inl (Err "unexpected end of JSON input").
Definition marshalImportList (l : zoneImportListStruct) : error + string :=
  inr sideFileText.
Definition marshalConfigMap (m : gmap string Types) : error + string := inr "{}".
Definition unmarshalConfigMap (data : string) : gmap string Types * option error :=
  (∅, None).

(** An API that answers every call: the zone is its contract, it has
    the name [www] with the types [A] and [AAAA]. *)
Definition getZone (zone : string) : error + string := inr "ctr_1".
Definition getZoneNames (zone : string) : error + list string := inr ["www"].
Definition getZoneNameTypes (zname zone : string) : error + Types := inr ["A"; "AAAA"].

(** Renderers that return a text and write nothing. *)
Definition processZone (zoneObject resourceZoneName : string) (segment : bool)
    (st : State) : (string * option error) * State :=
  (("resource " +:+ quoted zoneResource +:+ " " +:+ quoted resourceZoneName
      +:+ " {}" +:+ nl, None), st).
Definition processRecordsets (zone resourceZoneName : string)
    (zoneTypeMap : gmap string (gmap string bool)) (cfg : fetchConfigStruct)
    (st : State) : (gmap string Types * option error) * State :=
  ((∅, None), st).
Definition dnsvarsText (contract : string) : string := "contractid = " +:+ contract.

(** Nothing is declared yet. *)
Definition nothingDeclared (resourceType resourceName : string) : bool := false.

(** The flags of three more runs. *)
Definition segmentFlags : Flags :=
  mkFlags "example.com" "./" false true false (mkFetchConfig true true false).
Definition configOnlyFlags : Flags :=
  mkFlags "example.com" "./" false true false (mkFetchConfig true false false).
Definition inventoryFlags : Flags :=
  mkFlags "example.com" "./" true false false (mkFetchConfig false false false).

(** A state where only the file system matters. *)
Definition stateOf (files : FS) : State :=
  mkState files [] EmptyString None ∅ EmptyString None EmptyString.

(** The work path with the side file of the zone. *)
Definition withSideFile : FS :=
  <["./" := Dir]> (<["./example_com_resources.json" := File sideFileText]> ∅).

(** A path joined to a name with the separator. *)
Definition joinPath (dir name : string) : string := dir +:+ "/" +:+ name.

(** An encoder that knows the inventory of the examples and no other. *)
Definition marshalPersisted (l : zoneImportListStruct) : error + string :=
  if decide (Zone l = "example.com" ∧ Recordsets l = wwwInventory)
  then inr sideFileText
  else inl (Err "json: unsupported value").

(** The flags of an inventory run with [namesOnly], and of a run of the
    import script step alone. *)
Definition namesOnlyFlags : Flags :=
  mkFlags "example.com" "./" true false false (mkFetchConfig false false true).

(** An encoder of config maps that knows the empty map and no other. *)
Definition marshalEmptyMap (m : gmap string Types) : error + string :=
  if decide (m = ∅) then inr "{}" else inl (Err "json: unsupported value").


(** The flags of a run of the three steps on the segmented layout. *)
Definition allFlags : Flags :=
  mkFlags "example.com" "./" true true true (mkFetchConfig false true false).

(** An API that has no types for the name [mail]. *)
Definition failingTypes (zname zone : string) : error + Types :=
  if String.eqb zname "mail" then inl (Err "404 Not Found") else inr ["A"].

End Sample.

(** ** The command *)

Section Command.

(** *** Parameters

    The functions below are called by [command_create_zone.go] and are
    declared elsewhere: in files of the package that are not part of the
    sources at hand, in the API client, or in Go's library.  The
    development takes each of them as a parameter and assumes nothing
    about it. *)

(** Names of resources and of files. *)
Variable createUniqueRecordsetName : string → string → string → string.
Variable createRecordsetNormalName : string → string → string → string.
Variable normalizeResourceName : string → string.
(** [createImportListFilename(resourceName)], which may read [tfWorkPath]. *)
Variable createImportListFilename : string → string → string.
(** [tools.CreateTFFilename(resourceName, tfWorkPath)] and [filepath.Join]. *)
Variable CreateTFFilename : string → string → string.
Variable filepath_Join : string → string → string.
(** [filepath.Join] of three elements and [filepath.FromSlash]. *)
Variable filepath_Join3 : string → string → string → string.
Variable filepath_FromSlash : string → string.

(** [checkForResource(resourceType, resourceName)]: is the resource
    already declared. *)
Variable checkForResource : string → string → bool.

(** The API client: [GetZone], [GetZoneNames], [GetZoneNameTypes]. *)
Variable ZoneResponse : Type.
Variable ContractID : ZoneResponse → string.
Variable GetZone : string → error + ZoneResponse.
Variable GetZoneNames : string → error + list string.
Variable GetZoneNameTypes : string → string → error + Types.

(** The renderers [processZone] and [processRecordsets]: each returns
    its value and its error, and may write files on the way. *)
Variable processZone :
  ZoneResponse → string → bool → State → (string * option error) * State.
Variable processRecordsets :
  string → string → gmap string (gmap string bool) → fetchConfigStruct →
  State → (gmap string Types * option error) * State.

(** [encoding/json] at the two types the command stores, and the text
    of [dnsvars.tf] for a contract. *)
Variable MarshalIndent_importList : zoneImportListStruct → error + string.
Variable Unmarshal_importList : string → error + zoneImportListStruct.
Variable MarshalIndent_configMap : gmap string Types → error + string.
Variable Unmarshal_configMap : string → gmap string Types * option error.
Variable dnsvarsText : string → string.

(** The flags of this run. *)
Variable flags : Flags.

(** *** Helpers of the command *)

(** [createResourceConfigFilename] (lines 900-904). *)
Definition createResourceConfigFilename (resourceName : string) : string :=
  filepath_Join (tfWorkPath flags) (resourceName +:+ "_zoneconfig.json").

(** [createDirectory] (lines 918-936): [true] for a directory that
    exists or could be made, [false] when the path is a regular file.
    On a path that exists the definition is the code.  On a path that
    [os.Stat] does not find, the code panics when the error is not that
    the path does not exist (a parent is a regular file) and when
    [os.MkdirAll] fails, and [os.MkdirAll] also makes the parents; the
    definition has the case where the folder is made and its parents
    were there. *)
Definition createDirectory (dirName : string) : M bool :=
  stat ← get (λ st, os_Stat dirName (fs st));
  match stat with
  | Some Dir => mret true
  | None => modify (λ st, set_fs (<[dirName := Dir]> (fs st)) st);; mret true
  | Some (File _) => mret false
  end.

(** [appendRootModuleTF] (lines 363-373): one [Write] on the package's
    handle [zoneTFfileHandle], at the offset the handle is at. *)
Definition appendRootModuleTF (configText : string) : M (option error) :=
  h ← get zoneTFfileHandle;
  match h with
  | None => mret (Some (Err "failed to save zone configuration file"))
  | Some h =>
      w ← onFS (λ fs, let r := File_Write h configText fs in ((r.1.1, r.1.2), r.2));
      match w.1 with
      | inl _ => mret (Some (Err "failed to save zone configuration file"))
      | inr _ => modify (set_zoneTFfileHandle (Some w.2));; mret None
      end
  end.

(** *** Scan and reconciliation *)

(** What [reconcileZoneResourceTargets] returns: the handle, the text
    of the existing configuration, the revised import list, the map of
    the types to generate and the error. *)
Record Reconciled := mkReconciled {
  r_handle : option Handle;
  r_tfConfig : string;
  r_importList : option zoneImportListStruct;
  r_typeMap : gmap string (gmap string bool);
  r_err : option error
}.

(** The text kept from the bytes read (lines 976-979):
    [tfScratch[0:charsRead-1]] when [charsRead > 0], the empty string
    otherwise. *)
Definition scannedText (tfScratch : string) (charsRead : nat) : string :=
  if decide (0 < charsRead) then slice tfScratch 0 (charsRead - 1) else EmptyString.

(** [reconcileZoneResourceTargets] (lines 948-999).  The import list
    comes in by pointer; a nil pointer is dereferenced at line 981. *)
Definition reconcileZoneResourceTargets
    (zoneImportList : option zoneImportListStruct) (zoneName : string)
    (fs : FS) : Outcome Reconciled * FS :=
  let tfFilename := CreateTFFilename zoneName (tfWorkPath flags) in
  match os_OpenFile_create_rdwr tfFilename fs with
  | (inl err, fs1) => (Ok (mkReconciled None EmptyString zoneImportList ∅ (Some err)), fs1)
  | (inr tfHandle, fs1) =>
      match os_Stat tfFilename fs1 with
      | None => (Ok (mkReconciled None EmptyString zoneImportList ∅ (Some ENOENT)), fs1)
      | Some tfInfo =>
          match File_Read tfHandle (node_size tfInfo) fs1 with
          | (inl err, _) => (Ok (mkReconciled None EmptyString zoneImportList ∅ (Some err)), fs1)
          | (inr tfScratch, tfHandle1) =>
              let charsRead := String.length tfScratch in
              let tfHandle2 := File_Seek_start tfHandle1 0 in
              let tfConfig := scannedText tfScratch charsRead in
              match zoneImportList with
              | None => (Panic, fs1)
              | Some l =>
                  let r := reconcileRecordsets createUniqueRecordsetName
                             tfConfig zoneName (Recordsets l) in
                  (Ok (mkReconciled (Some tfHandle2) tfConfig
                         (Some (mkImportList (Zone l) r.1)) r.2 None), fs1)
              end
          end
      end
  end.

(** The same as a step on the state. *)
Definition reconcileStep_M (zoneImportList : option zoneImportListStruct)
    (zoneName : string) : M Reconciled := λ st,
  let o := reconcileZoneResourceTargets zoneImportList zoneName (fs st) in
  (o.1, set_fs o.2 st).

(** [retrieveZoneImportList] (lines 1001-1028). *)
Definition retrieveZoneImportList (rscName : string) (st : State)
    : error + option zoneImportListStruct :=
  if createImportList flags then inr (fullZoneImportList st)
  else if ConfigOnly (fetchConfig flags) then
    inr (Some (mkImportList (zoneName flags) ∅))
  else
    let importListFilename := createImportListFilename (tfWorkPath flags) rscName in
    match os_Stat importListFilename (fs st) with
    | None => inl ENOENT
    | Some _ =>
        match ioutil_ReadFile importListFilename (fs st) with
        | inl err => inl err
        | inr importData =>
            match Unmarshal_importList importData with
            | inl err => inl err
            | inr importList => inr (Some importList)
            end
        end
    end.

(** [retrieveZoneResourceConfig] (lines 1030-1052): the map is returned
    with the error. *)
Definition retrieveZoneResourceConfig (rscName : string) (st : State)
    : gmap string Types * option error :=
  if createConfig flags then (fullZoneConfigMap st, None)
  else
    let resourceConfigFilename := createResourceConfigFilename rscName in
    match os_Stat resourceConfigFilename (fs st) with
    | None => (∅, Some ENOENT)
    | Some _ =>
        match ioutil_ReadFile resourceConfigFilename (fs st) with
        | inl err => (∅, Some err)
        | inr configData => Unmarshal_configMap configData
        end
    end.

(** *** The import script (lines 441-466) *)

Definition importPrefix : string := "terraform import ".

(** The line of the zone resource and the line of one recordset. *)
Definition zoneImportLine (zone resourceName : string) : string :=
  importPrefix +:+ zoneResource +:+ "." +:+ resourceName +:+ " " +:+ zone +:+ nl.
Definition recordsetImportLine (zone normalName zname tname : string) : string :=
  importPrefix +:+ recordsetResource +:+ "." +:+ normalName +:+ " "
    +:+ zone +:+ "#" +:+ zname +:+ "#" +:+ tname +:+ nl.

(** One pass of the inner loop (lines 456-461). *)
Definition scriptTypeStep (zone resourceName zname : string)
    (importFile : string) (tname : string) : string :=
  let normalName := createRecordsetNormalName resourceName zname tname in
  if negb (checkForResource recordsetResource normalName)
  then importFile +:+ recordsetImportLine zone normalName zname tname
  else importFile.

(** One pass of the outer loop (lines 454-462). *)
Definition scriptNameStep (zone resourceName : string)
    (importFile : string) (entry : string * Types) : string :=
  foldl (scriptTypeStep zone resourceName entry.1) importFile entry.2.

(** The script, with the entries of the map visited in [order]. *)
Definition buildZoneImportScriptIn (order : list (string * Types))
    (zone resourceName : string) : string :=
  let importFile := EmptyString in
  let importFile := importFile +:+ ("terraform init" +:+ nl) in
  let importFile :=
    if negb (checkForResource zoneResource resourceName)
    then importFile +:+ zoneImportLine zone resourceName
    else importFile in
  foldl (scriptNameStep zone resourceName) importFile order.

(** [buildZoneImportScript]; its error is always nil. *)
Definition buildZoneImportScript (zone : string) (zoneConfigMap : gmap string Types)
    (resourceName : string) : string :=
  buildZoneImportScriptIn (map_to_list zoneConfigMap) zone resourceName.

(** *** The three steps of [CmdCreateZone] (lines 648-897)

    Messages to the terminal are left out; every [cli.Exit] carries
    its message and its code. *)

(** [f.WriteString(text)] on a file just created. *)
Definition writeString (f : Handle) (text : string) : M (error + nat) :=
  onFS (λ fs, let r := File_Write f text fs in (r.1.1, r.2)).

(** [os.Create(name)] followed by [f.WriteString(text)], with the
    message of each failure. *)
Definition createAndWrite (name text msgCreate msgWrite : string) : M unit :=
  c ← onFS (os_Create name);
  match c with
  | inl _ => cli_Exit msgCreate
  | inr f =>
      w ← writeString f text;
      match w with
      | inl _ => cli_Exit msgWrite
      | inr _ => mret tt
      end
  end.

(** [createNamedModulePath] (lines 907-915).  The two slice expressions
    [fpath[0:1]] and [fpath[0:2]] panic on a path shorter than their
    upper bound; the second is evaluated only when the first comparison
    holds. *)
Definition createNamedModulePath (modName : string) : Outcome string :=
  let fpath :=
    filepath_Join3 (tfWorkPath flags) moduleFolder (normalizeResourceName modName) in
  if decide (String.length fpath < 1) then Panic
  else if negb (String.eqb (slice fpath 0 1) "./") then
    if decide (String.length fpath < 2) then Panic
    else if negb (String.eqb (slice fpath 0 2) "../")
      then Ok (filepath_FromSlash ("./" +:+ fpath))
      else Ok fpath
  else Ok fpath.

(** [createModuleTF] (lines 394-418): the file of a named module is
    created in the folder of the module, unless it exists. *)
Definition createModuleTF (modName content : string) : M (option error) :=
  namedmodulePath ← (λ st, (createNamedModulePath modName, st));
  made ← createDirectory namedmodulePath;
  if negb made then
    mret (Some (Err ("Failed to create name module folder: " +:+ namedmodulePath)))
  else
    let moduleFilename :=
      filepath_Join namedmodulePath (normalizeResourceName modName +:+ ".tf") in
    found ← get (λ st, os_Stat moduleFilename (fs st));
    match found with
    | Some _ =>
        mret (Some (Err ("Zone record name config already exists: " +:+ moduleFilename)))
    | None =>
        c ← onFS (os_Create moduleFilename);
        match c with
        | inl _ =>
            mret (Some (Err ("Failed to create name module configuration file: "
                               +:+ namedmodulePath)))
        | inr f =>
            w ← writeString f content;
            match w with
            | inl _ =>
                mret (Some (Err ("Failed to write name module configuration: "
                                   +:+ namedmodulePath)))
            | inr _ => mret None
            end
        end
    end.

(** The loop over [recordNames] (lines 713-725). *)
Fixpoint fetchRecordsets (names : list string) (recordsets : gmap string Types)
    : M (gmap string Types) :=
  match names with
  | [] => mret recordsets
  | zname :: rest =>
      if NamesOnly (fetchConfig flags)
      then fetchRecordsets rest (<[zname := []]> recordsets)
      else
        match GetZoneNameTypes zname (zoneName flags) with
        | inl _ => cli_Exit "Zone Name types retrieval failed"
        | inr types => fetchRecordsets rest (<[zname := types]> recordsets)
        end
  end.

(** The end of the inventory step (lines 729-760): the list is written
    to a file that must not exist, in a work path that must be a
    directory. *)
Definition writeImportList (resourceZoneName : string)
    (recordsets : gmap string Types) : M unit :=
  stat ← get (λ st, os_Stat (tfWorkPath flags) (fs st));
  match stat with
  | Some Dir =>
      let importListFilename :=
        createImportListFilename (tfWorkPath flags) resourceZoneName in
      found ← get (λ st, os_Stat importListFilename (fs st));
      match found with
      | Some _ => cli_Exit "Resource list file exists. Remove to continue."
      | None =>
          let l := mkImportList (zoneName flags) recordsets in
          modify (set_fullZoneImportList (Some l));;
          match MarshalIndent_importList l with
          | inl _ => cli_Exit "Unable to generate json formatted zone resource list"
          | inr json =>
              createAndWrite importListFilename json
                "Unable to create zone resources file"
                "Unable to write zone resources file"
          end
      end
  | _ => cli_Exit "Destination work path is not accessible."
  end.

(** The inventory step, [if createImportList { ... }] (lines 699-761). *)
Definition createImportListStep (resourceZoneName : string) : M unit :=
  names ← get recordNames;
  (if decide (length names = 0) then
     match GetZoneNames (zoneName flags) with
     | inl _ => cli_Exit "Zone Name retrieval failed"
     | inr l => modify (set_recordNames l)
     end
   else mret tt);;
  names ← get recordNames;
  recordsets ← fetchRecordsets names ∅;
  writeImportList resourceZoneName recordsets.

(** The two markers of a modularized configuration (line 792). *)
Definition modularized (text : string) : bool :=
  Contains text "module" && Contains text "zonename".

(** The layout check on a configuration that exists (lines 792-802). *)
Definition layoutCheck (text : string) : M unit :=
  if modularized text then
    if negb (ModSegment (fetchConfig flags))
    then cli_Exit "Failed. Existing zone config is modularized"
    else mret tt
  else if ModSegment (fetchConfig flags)
    then cli_Exit "Failed. Existing zone config is not modularized"
    else mret tt.

(** The config step from the layout check on (lines 790-863). *)
Definition configFromScan (zoneObject : ZoneResponse) (resourceZoneName : string)
    (configImportList : option zoneImportListStruct)
    (zoneTypeMap : gmap string (gmap string bool)) : M unit :=
  text ← get zonetfConfig;
  (if decide (0 < String.length text) then layoutCheck text
   else
     z ← onState (processZone zoneObject resourceZoneName (ModSegment (fetchConfig flags)));
     modify (set_zonetfConfig z.1);;
     match z.2 with
     | Some _ => cli_Exit "Failed. Couldn't initialize zone config"
     | None => mret tt
     end);;
  text ← get zonetfConfig;
  werr ← appendRootModuleTF text;
  match werr with
  | Some _ => cli_Exit "Failed. Couldn't write to zone config"
  | None =>
      match configImportList with
      | None => panic
      | Some cil =>
          p ← onState (processRecordsets (Zone cil) resourceZoneName zoneTypeMap
                         (fetchConfig flags));
          modify (set_fullZoneConfigMap p.1);;
          match p.2 with
          | Some _ => cli_Exit "Failed to process recordsets."
          | None =>
              configMap ← get fullZoneConfigMap;
              match MarshalIndent_configMap configMap with
              | inl _ => cli_Exit "Unable to generate json formatted zone config"
              | inr json =>
                  createAndWrite (createResourceConfigFilename resourceZoneName) json
                    "Unable to create resource config file"
                    "Unable to write zone resource config file";;
                  cid ← get contractid;
                  createAndWrite (filepath_Join (tfWorkPath flags) "dnsvars.tf")
                    (dnsvarsText cid)
                    "Unable to create gtmvars config file"
                    "Unable to write gtmvars config file"
              end
          end
      end
  end.

(** The modules folder of a segmented configuration (lines 771-777). *)
Definition ensureModuleFolder : M unit :=
  if ModSegment (fetchConfig flags) then
    let p := filepath_Join (tfWorkPath flags) moduleFolder in
    modify (set_modulePath p);;
    made ← createDirectory p;
    if (made : bool) then (mret tt : M unit)
    else cli_Exit "Failed to create modules folder."
  else mret tt.

(** The scan and what follows it (lines 778-863).  The list that
    [retrieveZoneImportList] hands out when [createImportList] is set
    is the one [fullZoneImportList] points to, so the revision of its
    recordsets shows in that variable too. *)
Definition scanAndGenerate (zoneObject : ZoneResponse) (resourceZoneName : string)
    (zoneImportList : option zoneImportListStruct) : M unit :=
  rc ← reconcileStep_M zoneImportList resourceZoneName;
  modify (set_zoneTFfileHandle (r_handle rc));;
  modify (set_zonetfConfig (r_tfConfig rc));;
  (if createImportList flags
   then modify (set_fullZoneImportList (r_importList rc)) else mret tt);;
  match r_err rc with
  | Some _ => cli_Exit "Failed to open/create zone config file."
  | None =>
      configFromScan zoneObject resourceZoneName (r_importList rc) (r_typeMap rc)
  end.

(** The config step, [if createConfig { ... }] (lines 763-863). *)
Definition createConfigStep (zoneObject : ZoneResponse) (resourceZoneName : string)
    : M unit :=
  r ← get (retrieveZoneImportList resourceZoneName);
  match r with
  | inl _ => cli_Exit "Failed to read json zone resources file"
  | inr zoneImportList =>
      ensureModuleFolder;;
      scanAndGenerate zoneObject resourceZoneName zoneImportList
  end.

(** The import script step, [if importScript { ... }] (lines 328-355). *)
Definition importScriptStep (resourceZoneName : string) : M unit :=
  cfg ← get (retrieveZoneResourceConfig resourceZoneName);
  modify (set_fullZoneConfigMap cfg.1);;
  let importScriptFilename :=
    filepath_Join (tfWorkPath flags) (resourceZoneName +:+ "_resource_import.script") in
  configMap ← get fullZoneConfigMap;
  let scriptContent :=
    buildZoneImportScript (zoneName flags) configMap resourceZoneName in
  createAndWrite importScriptFilename scriptContent
    "Unable to create import script file"
    "Unable to write import script file".

(** [CmdCreateZone] once the flags are stored and the zone is named. *)
Definition CmdCreateZone : M unit :=
  match GetZone (zoneName flags) with
  | inl _ => cli_Exit "Zone retrieval failed"
  | inr zoneObject =>
      modify (set_contractid (ContractID zoneObject));;
      let resourceZoneName := normalizeResourceName (zoneName flags) in
      (if createImportList flags then createImportListStep resourceZoneName else mret tt);;
      (if createConfig flags then createConfigStep zoneObject resourceZoneName else mret tt);;
      (if importScript flags then importScriptStep resourceZoneName else mret tt)
  end.

(** *** What the specification calls the residual set *)

(** An identifier [(zoneName, zname, ntype)] is to be generated when
    its quoted name does not occur in the text. *)
Definition undeclared (tfConfig zoneName zname : string) (ntype : string) : Prop :=
  declaredIn createUniqueRecordsetName tfConfig zoneName zname ntype = false.

#[local] Instance undeclared_dec tfConfig zoneName zname ntype :
  Decision (undeclared tfConfig zoneName zname ntype).
Proof. unfold undeclared. apply _. Defined.

(** [Inventory \ DeclaredResourceSet], grouped by record name: under
    every name of the inventory, the types whose identifier is not
    declared in the text, in the order of the inventory. *)
Definition ResidualSet (tfConfig zoneName : string) (inventory : gmap string Types)
    : gmap string Types :=
  map_imap (λ zname typeList,
              Some (filter (undeclared tfConfig zoneName zname) typeList)) inventory.

(** The map of the types to generate: [true] at every type of the
    residual set. *)
Definition ResidualTypeMap (tfConfig zoneName : string) (inventory : gmap string Types)
    : gmap string (gmap string bool) :=
  map_imap (λ zname typeList,
              Some (gset_to_gmap true
                      (list_to_set (filter (undeclared tfConfig zoneName zname) typeList))))
           inventory.

(** *** What the specification calls the lines of the import script *)

(** The identifiers [(zname, tname)] of a config map, in the order of
    a visit of its entries. *)
Definition identifiers (order : list (string * Types)) : list (string * string) :=
  order ≫= λ entry, (λ tname, (entry.1, tname)) <$> entry.2.

(** A recordset that [checkForResource] does not find declared. *)
Definition resourceUndeclared (resourceName : string) (id : string * string) : Prop :=
  checkForResource recordsetResource
    (createRecordsetNormalName resourceName id.1 id.2) = false.

#[local] Instance resourceUndeclared_dec resourceName id :
  Decision (resourceUndeclared resourceName id).
Proof. unfold resourceUndeclared. apply _. Defined.

(** The initialization line, the line of the zone unless the zone is
    declared, and one line for every recordset that is not declared. *)
Definition importLines (order : list (string * Types)) (zone resourceName : string)
    : list string :=
  ["terraform init" +:+ nl]
  ++ (if checkForResource zoneResource resourceName
      then [] else [zoneImportLine zone resourceName])
  ++ ((λ id, recordsetImportLine zone
               (createRecordsetNormalName resourceName id.1 id.2) id.1 id.2)
        <$> filter (resourceUndeclared resourceName) (identifiers order)).

(** The text of a list of lines. *)
Definition concatLines (lines : list string) : string :=
  foldr String.append EmptyString lines.

(** *** How a step may end *)

(** From a state that satisfies [P], the step [c] ends with a value and
    a state that satisfy [Q], or with an exit of code 1; it does not
    panic. *)
Definition ends_well {A} (P : State → Prop) (c : M A) (Q : A → State → Prop) : Prop :=
  ∀ st, P st →
    match c st with
    | (Ok a, st') => Q a st'
    | (Exit _ code, _) => code = 1%Z
    | (Panic, _) => False
    end.

(** ** Properties *)

(** [set_solver] on a goal about lists, with the parameters of the
    section out of its sight. *)
Ltac list_solver :=
  try clear processZone; try clear processRecordsets; try clear ContractID;
  try clear GetZone; try clear GetZoneNames; try clear GetZoneNameTypes;
  try clear ZoneResponse;
  try clear MarshalIndent_importList; try clear Unmarshal_importList;
  try clear MarshalIndent_configMap; try clear Unmarshal_configMap;
  try clear dnsvarsText; try clear checkForResource;
  try clear createRecordsetNormalName; try clear createUniqueRecordsetName;
  try clear normalizeResourceName; try clear createImportListFilename;
  try clear CreateTFFilename; try clear filepath_Join; try clear flags;
  try clear filepath_Join3; try clear filepath_FromSlash;
  set_solver.

(** *** Substrings *)

Lemma append_assoc (a b c : string) : (a +:+ b) +:+ c = a +:+ (b +:+ c).
Proof. induction a as [|x a IH]; simpl; [done|]. by f_equal. Qed.

Lemma append_nil_r (a : string) : a +:+ EmptyString = a.
Proof. induction a as [|x a IH]; simpl; [done|]. by f_equal. Qed.

Lemma length_append (a b : string) :
  String.length (a +:+ b) = String.length a + String.length b.
Proof. induction a as [|x a IH]; simpl; [done|]. by f_equal. Qed.

Lemma HasPrefix_app (p r : string) : HasPrefix (p +:+ r) p = true.
Proof.
  induction p as [|a p IH]; simpl; [done|].
  by rewrite Ascii.eqb_refl.
Qed.

Lemma HasPrefix_inv (s p : string) :
  HasPrefix s p = true → ∃ r, s = p +:+ r.
Proof.
  revert s. induction p as [|a p IH]; intros s H; simpl in *.
  - by exists s.
  - destruct s as [|b s]; [done|].
    destruct (Ascii.eqb a b) eqn:Hab; [|done].
    apply Ascii.eqb_eq in Hab as ->.
    destruct (IH _ H) as [r ->]. by exists r.
Qed.

Lemma Contains_HasPrefix (s sub : string) :
  HasPrefix s sub = true → Contains s sub = true.
Proof. destruct s; simpl; by intros ->. Qed.

(** [Contains] is the occurrence of the needle between two strings. *)
Lemma Contains_spec (s sub : string) :
  Contains s sub = true ↔ ∃ l r, s = l +:+ sub +:+ r.
Proof.
  split.
  - induction s as [|c s IH]; simpl; intros H.
    + rewrite orb_false_r in H. apply HasPrefix_inv in H as [r Hr].
      by exists EmptyString, r.
    + apply orb_true_iff in H as [H|H].
      * apply HasPrefix_inv in H as [r Hr]. by exists EmptyString, r.
      * destruct (IH H) as (l & r & ->). by exists (String c l), r.
  - intros (l & r & ->). induction l as [|c l IH]; simpl.
    + apply Contains_HasPrefix, HasPrefix_app.
    + rewrite IH. apply orb_true_r.
Qed.

(** What a text contains, every extension of it contains. *)
Lemma Contains_app_l (s e sub : string) :
  Contains s sub = true → Contains (s +:+ e) sub = true.
Proof.
  rewrite !Contains_spec. intros (l & r & ->).
  exists l, (r +:+ e). by rewrite !append_assoc.
Qed.

(** *** The two loops *)

Lemma foldl_foldr_reverse {A B} (f : A → B → A) (a : A) (l : list B) :
  foldl f a l = foldr (λ e acc, f acc e) a (reverse l).
Proof.
  revert a. induction l as [|x l IH]; intros a; [done|].
  cbn [foldl]. by rewrite IH, reverse_cons, foldr_snoc.
Qed.

Lemma foldl_mark_lookup (l : Types) (m : gmap string bool) (k : string) :
  foldl (λ acc ntype, <[ntype := true]> acc) m l !! k
  = if decide (k ∈ l) then Some true else m !! k.
Proof.
  revert m. induction l as [|x l IH]; intros m.
  - done.
  - cbn [foldl]. rewrite IH.
    destruct (decide (k ∈ l)) as [Hl|Hl], (decide (k ∈ x :: l)) as [Hx|Hx]; try done.
    + list_solver.
    + apply elem_of_cons in Hx as [->|?]; [by rewrite lookup_insert_eq|done].
    + rewrite lookup_insert_ne; [done|]. list_solver.
Qed.

(** The inner loop keeps the undeclared types in their order and marks
    each of them. *)
Lemma foldl_reviseStep tfConfig zoneName zname (l : Types) acc :
  foldl (reviseStep createUniqueRecordsetName tfConfig zoneName zname) acc l
  = (foldl (λ m ntype, <[ntype := true]> m) acc.1
       (filter (undeclared tfConfig zoneName zname) l),
     acc.2 ++ filter (undeclared tfConfig zoneName zname) l).
Proof.
  revert acc. induction l as [|x l IH]; intros [m r].
  - simpl. by rewrite app_nil_r.
  - cbn [foldl]. rewrite IH. unfold reviseStep. cbn [fst snd].
    destruct (declaredIn createUniqueRecordsetName tfConfig zoneName zname x) eqn:E;
      cbn [negb fst snd].
    + rewrite filter_cons_False; [done|]. unfold undeclared. by rewrite E.
    + rewrite filter_cons_True by done. simpl. by rewrite <- app_assoc.
Qed.

Lemma reviseTypes_spec tfConfig zoneName zname (l : Types) :
  reviseTypes createUniqueRecordsetName tfConfig zoneName zname l
  = (gset_to_gmap true (list_to_set (filter (undeclared tfConfig zoneName zname) l)),
     filter (undeclared tfConfig zoneName zname) l).
Proof.
  unfold reviseTypes. rewrite foldl_reviseStep. simpl. f_equal.
  apply map_eq. intros k. rewrite foldl_mark_lookup, lookup_gset_to_gmap.
  rewrite lookup_empty. case_decide.
  - by rewrite option_guard_True by list_solver.
  - by rewrite option_guard_False by list_solver.
Qed.

(** The outer loop, entries taken from the right: what it leaves under
    a name is decided by the first entry of that name. *)
Lemma foldr_reconcileStep_lookup tfConfig zoneName (l : list (string * Types)) acc k :
  let r := foldr (λ e a, reconcileStep createUniqueRecordsetName tfConfig zoneName a e)
             acc l in
  r.1 !! k = match (list_to_map l : gmap string Types) !! k with
             | Some v => Some (filter (undeclared tfConfig zoneName k) v)
             | None => acc.1 !! k
             end
  ∧ r.2 !! k = match (list_to_map l : gmap string Types) !! k with
               | Some v => Some (gset_to_gmap true
                             (list_to_set (filter (undeclared tfConfig zoneName k) v)))
               | None => acc.2 !! k
               end.
Proof.
  induction l as [|[n v] l IH]; simpl.
  - by rewrite lookup_empty.
  - unfold reconcileStep at 1 2. cbn [fst snd]. rewrite reviseTypes_spec. cbn [fst snd].
    destruct (decide (n = k)) as [->|Hne].
    + by rewrite !lookup_insert_eq.
    + rewrite !lookup_insert_ne by done. exact IH.
Qed.

(** In whatever order the entries of the map are visited, the loop
    computes the residual set and its type map. *)
Lemma reconcileLoop_spec tfConfig zoneName (recordsets : gmap string Types) order :
  order ≡ₚ map_to_list recordsets →
  reconcileLoop createUniqueRecordsetName tfConfig zoneName order recordsets
  = (ResidualSet tfConfig zoneName recordsets,
     ResidualTypeMap tfConfig zoneName recordsets).
Proof.
  intros Hperm. unfold reconcileLoop.
  rewrite foldl_foldr_reverse.
  assert (Hmap : (list_to_map (reverse order) : gmap string Types) = recordsets).
  { transitivity (list_to_map (map_to_list recordsets) : gmap string Types);
      [|apply list_to_map_to_list].
    apply list_to_map_proper.
    - rewrite reverse_Permutation, Hperm. apply NoDup_fst_map_to_list.
    - by rewrite reverse_Permutation. }
  match goal with |- ?r = _ => rewrite (surjective_pairing r) end.
  f_equal; apply map_eq; intros k.
  - rewrite (proj1 (foldr_reconcileStep_lookup tfConfig zoneName (reverse order)
                      (recordsets, ∅) k)).
    rewrite Hmap. unfold ResidualSet. rewrite map_lookup_imap.
    simpl. by destruct (recordsets !! k).
  - rewrite (proj2 (foldr_reconcileStep_lookup tfConfig zoneName (reverse order)
                      (recordsets, ∅) k)).
    rewrite Hmap. unfold ResidualTypeMap. rewrite map_lookup_imap.
    simpl. destruct (recordsets !! k); [done|]. by rewrite lookup_empty.
Qed.

Lemma reconcileRecordsets_spec tfConfig zoneName (recordsets : gmap string Types) :
  reconcileRecordsets createUniqueRecordsetName tfConfig zoneName recordsets
  = (ResidualSet tfConfig zoneName recordsets,
     ResidualTypeMap tfConfig zoneName recordsets).
Proof. by apply reconcileLoop_spec. Qed.

(** *** The residual set *)

Lemma filter_all {A} (P : A → Prop) `{∀ x, Decision (P x)} (l : list A) :
  (∀ x, x ∈ l → P x) → filter P l = l.
Proof.
  induction l as [|x l IH]; intros HP; [done|].
  rewrite filter_cons_True by (apply HP; list_solver).
  f_equal. apply IH. intros y Hy. apply HP. list_solver.
Qed.

Lemma filter_none {A} (P : A → Prop) `{∀ x, Decision (P x)} (l : list A) :
  (∀ x, x ∈ l → ¬ P x) → filter P l = [].
Proof.
  induction l as [|x l IH]; intros HP; [done|].
  rewrite filter_cons_False by (apply HP; list_solver).
  apply IH. intros y Hy. apply HP. list_solver.
Qed.

Lemma ResidualSet_lookup tfConfig zoneName (inventory : gmap string Types) zname :
  ResidualSet tfConfig zoneName inventory !! zname
  = filter (undeclared tfConfig zoneName zname) <$> inventory !! zname.
Proof. unfold ResidualSet. rewrite map_lookup_imap. by destruct (inventory !! zname). Qed.

Lemma ResidualTypeMap_lookup tfConfig zoneName (inventory : gmap string Types) zname :
  ResidualTypeMap tfConfig zoneName inventory !! zname
  = (λ typeList, gset_to_gmap true
       (list_to_set (filter (undeclared tfConfig zoneName zname) typeList)))
    <$> inventory !! zname.
Proof.
  unfold ResidualTypeMap. rewrite map_lookup_imap. by destruct (inventory !! zname).
Qed.

(** C2: for every inventory and every existing text, in whatever order
    the loop visits the inventory, the residual it computes is the
    inventory minus the identifiers whose quoted name occurs in the text:
    a type is in the residual list of a name exactly when it is in the
    inventory's list of that name and its quoted name does not occur in
    the text; so every residual list is contained in the inventory's
    list of the same name. *)
Theorem residual_is_inventory_minus_declared
    tfConfig zoneName (inventory : gmap string Types) order :
  order ≡ₚ map_to_list inventory →
  let residual :=
    (reconcileLoop createUniqueRecordsetName tfConfig zoneName order inventory).1 in
  residual = ResidualSet tfConfig zoneName inventory
  ∧ (∀ zname ntype,
       (∃ revised, residual !! zname = Some revised ∧ ntype ∈ revised)
       ↔ (∃ typeList, inventory !! zname = Some typeList ∧ ntype ∈ typeList
            ∧ Contains tfConfig
                (quoted (createUniqueRecordsetName zoneName zname ntype)) = false))
  ∧ (∀ zname revised, residual !! zname = Some revised →
       ∃ typeList, inventory !! zname = Some typeList ∧ revised ⊆ typeList).
Proof.
  intros Hperm residual. subst residual.
  rewrite reconcileLoop_spec by done. cbn [fst].
  split; [done|]. split.
  - intros zname ntype. rewrite ResidualSet_lookup. split.
    + intros (revised & Hl & Hin).
      destruct (inventory !! zname) as [typeList|] eqn:E; [|done].
      injection Hl as <-. apply list_elem_of_filter in Hin as [Hu Hin].
      by exists typeList.
    + intros (typeList & -> & Hin & Hu).
      eexists. split; [done|]. by apply list_elem_of_filter.
  - intros zname revised. rewrite ResidualSet_lookup.
    destruct (inventory !! zname) as [typeList|] eqn:E; [|done].
    intros [= <-]. exists typeList. split; [done|].
    intros x Hx. by apply list_elem_of_filter in Hx as [_ ?].
Qed.

(** *** The scan of the target file *)

Lemma substring_full (c : string) : String.substring 0 (String.length c) c = c.
Proof. induction c as [|x c IH]; simpl; [done|]. by rewrite IH. Qed.

Lemma substring_prefix (a b : string) :
  String.substring 0 (String.length a) (a +:+ b) = a.
Proof.
  induction a as [|x a IH]; simpl; [by destruct b|]. by rewrite IH.
Qed.

(** A string that is not empty is a string followed by one byte. *)
Lemma string_snoc (c : string) :
  c ≠ EmptyString → ∃ body last, c = body +:+ String last EmptyString.
Proof.
  induction c as [|x c IH]; [done|]. intros _.
  destruct c as [|y c].
  - by exists EmptyString, x.
  - destruct IH as (body & last & ->); [done|]. by exists (String x body), last.
Qed.

(** The text kept from a file is the file without its last byte. *)
Lemma scannedText_snoc (body : string) (last : ascii) :
  let c := body +:+ String last EmptyString in
  scannedText c (String.length c) = body.
Proof.
  intros c. subst c. unfold scannedText. rewrite length_append. simpl.
  rewrite decide_True by lia. unfold slice.
  replace (String.length body + 1 - 1 - 0) with (String.length body) by lia.
  apply substring_prefix.
Qed.

(** The scan of a target file that exists: the file system is left as
    it is, the handle is at offset 0, and the text is the content cut
    by [scannedText]. *)
Lemma reconcile_existing_file (l : zoneImportListStruct) zoneName (fs : FS) c :
  fs !! CreateTFFilename zoneName (tfWorkPath flags) = Some (File c) →
  let tfConfig := scannedText c (String.length c) in
  reconcileZoneResourceTargets (Some l) zoneName fs
  = (Ok (mkReconciled
           (Some (mkHandle (CreateTFFilename zoneName (tfWorkPath flags)) 0))
           tfConfig
           (Some (mkImportList (Zone l) (ResidualSet tfConfig zoneName (Recordsets l))))
           (ResidualTypeMap tfConfig zoneName (Recordsets l))
           None), fs).
Proof.
  intros Hfile tfConfig. unfold reconcileZoneResourceTargets.
  unfold os_OpenFile_create_rdwr, os_Stat, File_Read. rewrite Hfile. cbn.
  rewrite Hfile. cbn. rewrite !substring_full.
  by rewrite reconcileRecordsets_spec.
Qed.

(** The scan when there is no target file: an empty file is created
    and the text is empty. *)
Lemma reconcile_missing_file (l : zoneImportListStruct) zoneName (fs : FS) :
  fs !! CreateTFFilename zoneName (tfWorkPath flags) = None →
  reconcileZoneResourceTargets (Some l) zoneName fs
  = (Ok (mkReconciled
           (Some (mkHandle (CreateTFFilename zoneName (tfWorkPath flags)) 0))
           EmptyString
           (Some (mkImportList (Zone l)
                    (ResidualSet EmptyString zoneName (Recordsets l))))
           (ResidualTypeMap EmptyString zoneName (Recordsets l))
           None),
     <[CreateTFFilename zoneName (tfWorkPath flags) := File EmptyString]> fs).
Proof.
  intros Hfile. unfold reconcileZoneResourceTargets.
  unfold os_OpenFile_create_rdwr, os_Stat, File_Read. rewrite Hfile. cbn.
  rewrite !lookup_insert_eq. cbn.
  by rewrite reconcileRecordsets_spec.
Qed.

(** With an empty text nothing is declared. *)
Lemma undeclared_empty zoneName zname ntype :
  undeclared EmptyString zoneName zname ntype.
Proof. reflexivity. Qed.

Lemma ResidualSet_empty_text zoneName (inventory : gmap string Types) :
  ResidualSet EmptyString zoneName inventory = inventory.
Proof.
  apply map_eq. intros zname. rewrite ResidualSet_lookup.
  destruct (inventory !! zname) as [typeList|]; [|done]. simpl. f_equal.
  apply filter_all. intros. apply undeclared_empty.
Qed.

Lemma ResidualTypeMap_empty_text zoneName (inventory : gmap string Types) zname typeList :
  inventory !! zname = Some typeList →
  ∃ typeMap, ResidualTypeMap EmptyString zoneName inventory !! zname = Some typeMap
    ∧ ∀ ntype, typeMap !! ntype = if decide (ntype ∈ typeList) then Some true else None.
Proof.
  intros Hl. rewrite ResidualTypeMap_lookup, Hl. simpl. eexists. split; [done|].
  intros ntype. rewrite lookup_gset_to_gmap.
  rewrite filter_all by (intros; apply undeclared_empty).
  case_decide.
  - by rewrite option_guard_True by list_solver.
  - by rewrite option_guard_False by list_solver.
Qed.

(** C6: when the existing configuration text is empty, the residual is
    the whole inventory.  In whatever order the loop visits the
    inventory it returns the inventory unchanged, and under every name
    the type map holds [true] at exactly the types of that name.  When
    the target file is missing or empty, [reconcileZoneResourceTargets]
    returns, and whenever it returns no error (the file was there, or
    could be created) it has scanned the empty text and returns the
    import list it was given, with the type map of the loop; on an
    empty file that exists it returns no error. *)
Theorem empty_text_residual_is_inventory
    (l : zoneImportListStruct) zoneName (fs : FS) order :
  order ≡ₚ map_to_list (Recordsets l) →
  fs !! CreateTFFilename zoneName (tfWorkPath flags) = None
  ∨ fs !! CreateTFFilename zoneName (tfWorkPath flags) = Some (File EmptyString) →
  let looped :=
    reconcileLoop createUniqueRecordsetName EmptyString zoneName order (Recordsets l) in
  looped.1 = Recordsets l
  ∧ (∀ zname typeList, Recordsets l !! zname = Some typeList →
       ∃ typeMap, looped.2 !! zname = Some typeMap
         ∧ ∀ ntype, typeMap !! ntype
                    = if decide (ntype ∈ typeList) then Some true else None)
  ∧ ∃ rc fs', reconcileZoneResourceTargets (Some l) zoneName fs = (Ok rc, fs')
      ∧ (r_err rc = None →
         r_tfConfig rc = EmptyString
         ∧ r_importList rc = Some l
         ∧ r_typeMap rc = looped.2)
      ∧ (fs !! CreateTFFilename zoneName (tfWorkPath flags) = Some (File EmptyString) →
         r_err rc = None).
Proof.
  intros Hperm Hfile looped. subst looped.
  rewrite reconcileLoop_spec by done. cbn [fst snd].
  split; [apply ResidualSet_empty_text|].
  split; [apply ResidualTypeMap_empty_text|].
  destruct Hfile as [Hnone|Hempty].
  - eexists _, _. split; [by apply reconcile_missing_file|]. cbn.
    split; [|done]. intros _. rewrite ResidualSet_empty_text. by destruct l.
  - eexists _, _. split; [by apply reconcile_existing_file|]. cbn.
    split; [|done]. intros _. rewrite ResidualSet_empty_text. by destruct l.
Qed.

(** C7: membership is decided for each identifier on its own.  When
    the existing text contains the quoted name of [(zone, www, A)] and
    not the quoted name of [(zone, www, AAAA)], reconciling the
    inventory [{www: [A, AAAA]}] leaves [{www: [AAAA]}], and the type
    map marks [AAAA] only. *)
Theorem substring_match_is_per_identifier tfConfig zoneName :
  Contains tfConfig (quoted (createUniqueRecordsetName zoneName "www" "A")) = true →
  Contains tfConfig (quoted (createUniqueRecordsetName zoneName "www" "AAAA")) = false →
  reconcileRecordsets createUniqueRecordsetName tfConfig zoneName
    {[ "www" := ["A"; "AAAA"] ]}
  = ({[ "www" := ["AAAA"] ]}, {[ "www" := {[ "AAAA" := true ]} ]}).
Proof.
  intros HA HAAAA. unfold reconcileRecordsets, reconcileLoop.
  rewrite map_to_list_singleton. cbn [foldl].
  unfold reconcileStep, reviseTypes. cbn [foldl fst snd].
  unfold reviseStep, declaredIn. rewrite HA. cbn [negb fst snd].
  rewrite HAAAA. cbn [negb fst snd app].
  by rewrite insert_singleton_eq, !insert_empty.
Qed.

(** C1: a second reconciliation of the same inventory finds nothing
    left to generate.  The first run scans [tfConfig1] and leaves a
    residual; the text of the second run is [tfConfig1] followed by
    what the first run emitted, and it holds the quoted name of every
    identifier of that residual.  Then, in whatever orders the two
    loops visit the inventory, the second run leaves the empty list
    under every name of the inventory and marks no type; and so does
    [reconcileZoneResourceTargets] on a target file that holds this
    text and one more byte after it. *)
Theorem second_run_residual_is_empty
    tfConfig1 emitted zoneName (l : zoneImportListStruct) order1 order2 :
  let inventory := Recordsets l in
  order1 ≡ₚ map_to_list inventory →
  order2 ≡ₚ map_to_list inventory →
  let first :=
    reconcileLoop createUniqueRecordsetName tfConfig1 zoneName order1 inventory in
  let tfConfig2 := tfConfig1 +:+ emitted in
  (∀ zname revised ntype,
     first.1 !! zname = Some revised → ntype ∈ revised →
     Contains tfConfig2 (quoted (createUniqueRecordsetName zoneName zname ntype)) = true) →
  let second :=
    reconcileLoop createUniqueRecordsetName tfConfig2 zoneName order2 inventory in
  second.1 = (λ _, []) <$> inventory
  ∧ second.2 = (λ _, ∅) <$> inventory
  ∧ ∀ (files : FS) (last : ascii),
      files !! CreateTFFilename zoneName (tfWorkPath flags)
        = Some (File (tfConfig2 +:+ String last EmptyString)) →
      ∃ rc, reconcileZoneResourceTargets (Some l) zoneName files = (Ok rc, files)
        ∧ r_err rc = None
        ∧ r_tfConfig rc = tfConfig2
        ∧ r_importList rc = Some (mkImportList (Zone l) ((λ _, []) <$> inventory))
        ∧ r_typeMap rc = (λ _, ∅) <$> inventory.
Proof.
  intros inventory Hperm1 Hperm2 first tfConfig2 Hdeclared second. subst first second.
  rewrite reconcileLoop_spec in Hdeclared by done. cbn [fst] in Hdeclared.
  rewrite reconcileLoop_spec by done. cbn [fst snd].
  assert (Hnone : ∀ zname typeList, inventory !! zname = Some typeList →
            filter (undeclared tfConfig2 zoneName zname) typeList = []).
  { intros zname typeList Hl. apply filter_none. intros ntype Hin Hu.
    unfold undeclared, declaredIn in Hu.
    destruct (Contains tfConfig1
                (quoted (createUniqueRecordsetName zoneName zname ntype))) eqn:E1.
    - apply (Contains_app_l _ emitted) in E1. fold tfConfig2 in E1. congruence.
    - rewrite (Hdeclared zname (filter (undeclared tfConfig1 zoneName zname) typeList)
                 ntype) in Hu; [done| |].
      + by rewrite ResidualSet_lookup, Hl.
      + by apply list_elem_of_filter. }
  assert (Hset : ResidualSet tfConfig2 zoneName inventory = (λ _, []) <$> inventory).
  { apply map_eq; intros zname; rewrite lookup_fmap, ResidualSet_lookup.
    destruct (inventory !! zname) as [typeList|] eqn:E; [|done].
    simpl. by rewrite (Hnone _ _ E). }
  assert (Hmap : ResidualTypeMap tfConfig2 zoneName inventory = (λ _, ∅) <$> inventory).
  { apply map_eq; intros zname; rewrite lookup_fmap, ResidualTypeMap_lookup.
    destruct (inventory !! zname) as [typeList|] eqn:E; [|done].
    simpl. by rewrite (Hnone _ _ E). }
  split; [exact Hset|]. split; [exact Hmap|].
  intros files last Hfile. eexists. split; [by apply reconcile_existing_file|].
  cbn [r_err r_tfConfig r_importList r_typeMap]. rewrite scannedText_snoc.
  fold inventory. by rewrite Hset, Hmap.
Qed.

(** *** The import script *)

Lemma concatLines_app (l1 l2 : list string) :
  concatLines (l1 ++ l2) = concatLines l1 +:+ concatLines l2.
Proof.
  induction l1 as [|x l1 IH]; [done|].
  cbn [app concatLines foldr]. fold (concatLines (l1 ++ l2)). fold (concatLines l1).
  by rewrite IH, append_assoc.
Qed.

(** The inner loop appends the lines of the undeclared types of a name. *)
Lemma foldl_scriptTypeStep zone resourceName zname (typeList : Types) importFile :
  foldl (scriptTypeStep zone resourceName zname) importFile typeList
  = importFile +:+ concatLines
      ((λ id, recordsetImportLine zone
                (createRecordsetNormalName resourceName id.1 id.2) id.1 id.2)
         <$> filter (resourceUndeclared resourceName)
               ((λ tname, (zname, tname)) <$> typeList)).
Proof.
  revert importFile. induction typeList as [|t typeList IH]; intros importFile.
  - simpl. by rewrite append_nil_r.
  - cbn [foldl fmap list_fmap]. rewrite IH. unfold scriptTypeStep.
    destruct (checkForResource recordsetResource
                (createRecordsetNormalName resourceName zname t)) eqn:E; cbn [negb].
    + rewrite filter_cons_False; [done|].
      unfold resourceUndeclared. cbn [fst snd]. by rewrite E.
    + rewrite filter_cons_True by done. cbn [fmap list_fmap concatLines foldr fst snd].
      by rewrite append_assoc.
Qed.

(** The outer loop appends the lines of all the identifiers. *)
Lemma foldl_scriptNameStep zone resourceName (order : list (string * Types)) importFile :
  foldl (scriptNameStep zone resourceName) importFile order
  = importFile +:+ concatLines
      ((λ id, recordsetImportLine zone
                (createRecordsetNormalName resourceName id.1 id.2) id.1 id.2)
         <$> filter (resourceUndeclared resourceName) (identifiers order)).
Proof.
  revert importFile. induction order as [|entry order IH]; intros importFile.
  - simpl. by rewrite append_nil_r.
  - cbn [foldl]. rewrite IH. unfold scriptNameStep.
    rewrite foldl_scriptTypeStep.
    unfold identifiers. rewrite bind_cons, filter_app, fmap_app, concatLines_app.
    by rewrite append_assoc.
Qed.

Lemma identifiers_length (order : list (string * Types)) :
  (∀ entry, entry ∈ order → length entry.2 = 1) →
  length (identifiers order) = length order.
Proof.
  induction order as [|entry order IH]; intros Hone; [done|].
  unfold identifiers. rewrite bind_cons, length_app, length_fmap.
  fold (identifiers order). rewrite IH by (intros; apply Hone; list_solver).
  rewrite Hone by list_solver. done.
Qed.

(** C9: in whatever order the entries of the config map are visited,
    the import script is the text of these lines: the line
    [terraform init]; then the import line of the zone resource,
    present exactly when [checkForResource] does not find the zone
    declared; then one import line for every [(name, type)] of the map
    that [checkForResource] does not find declared.  So it has one line,
    plus one for an undeclared zone, plus one for each undeclared
    recordset; when nothing is declared, a map of two names with one
    type each gives 4 lines. *)
Theorem import_script_lines
    zone (zoneConfigMap : gmap string Types) resourceName order :
  order ≡ₚ map_to_list zoneConfigMap →
  buildZoneImportScriptIn order zone resourceName
  = concatLines (importLines order zone resourceName)
  ∧ length (importLines order zone resourceName)
    = 1 + (if checkForResource zoneResource resourceName then 0 else 1)
      + length (filter (resourceUndeclared resourceName) (identifiers order))
  ∧ ((∀ rtype rname, checkForResource rtype rname = false) →
     size zoneConfigMap = 2 →
     (∀ zname typeList, zoneConfigMap !! zname = Some typeList → length typeList = 1) →
     length (importLines order zone resourceName) = 4).
Proof.
  intros Hperm.
  assert (Hlen : length (importLines order zone resourceName)
            = 1 + (if checkForResource zoneResource resourceName then 0 else 1)
              + length (filter (resourceUndeclared resourceName) (identifiers order))).
  { unfold importLines. rewrite !length_app, length_fmap.
    destruct (checkForResource zoneResource resourceName); simpl; lia. }
  split; [|split; [exact Hlen|]].
  - unfold buildZoneImportScriptIn, importLines.
    rewrite foldl_scriptNameStep, !concatLines_app.
    destruct (checkForResource zoneResource resourceName); cbn [negb concatLines foldr].
    + by rewrite !append_nil_r.
    + by rewrite !append_nil_r, !append_assoc.
  - intros Hnone Hsize Hone. rewrite Hlen, Hnone.
    rewrite filter_all by (intros; apply Hnone).
    rewrite identifiers_length.
    + rewrite Hperm, length_map_to_list, Hsize. done.
    + intros [zname typeList] Hin. apply (Hone zname).
      rewrite Hperm in Hin. by apply elem_of_map_to_list in Hin.
Qed.

(** *** The inventory step *)

(** Unfolds the plumbing of the steps. *)
Ltac step_unfold :=
  unfold mbind, M_bind, bind, mret, M_ret, ret, get, modify, cli_Exit, panic,
    onFS, onState in *; cbv beta iota in *.

(** The loop over the record names writes nothing: it ends with the
    recordsets or with an exit of code 1, in the state it started in. *)
Lemma fetchRecordsets_state names recordsets (st : State) :
  (∃ fetched, fetchRecordsets names recordsets st = (Ok fetched, st))
  ∨ (∃ msg, fetchRecordsets names recordsets st = (Exit msg 1%Z, st)).
Proof.
  revert recordsets. induction names as [|zname names IH]; intros recordsets.
  - left. by eexists.
  - cbn [fetchRecordsets]. destruct (NamesOnly (fetchConfig flags)); [apply IH|].
    destruct (GetZoneNameTypes zname (zoneName flags)); [|apply IH].
    right. by eexists.
Qed.

(** Where the list file exists the list is not written. *)
Lemma writeImportList_exists resourceZoneName recordsets (st : State) node :
  fs st !! createImportListFilename (tfWorkPath flags) resourceZoneName = Some node →
  ∃ msg, writeImportList resourceZoneName recordsets st = (Exit msg 1%Z, st).
Proof.
  intros Hexists. unfold writeImportList. step_unfold. unfold os_Stat.
  destruct (fs st !! tfWorkPath flags) as [[|?]|]; cbv beta;
    rewrite ?Hexists; by eexists.
Qed.

(** C10: when the zone resources list file of the zone exists, the
    inventory step ends with an exit of code 1 and leaves the file
    system as it found it, so the file keeps its bytes; and a command
    run with the [resources] flag ends the same way. *)
Theorem existing_resource_list_is_fatal resourceZoneName (st : State) node :
  fs st !! createImportListFilename (tfWorkPath flags) resourceZoneName = Some node →
  (∃ msg st', createImportListStep resourceZoneName st = (Exit msg 1%Z, st')
              ∧ fs st' = fs st)
  ∧ (createImportList flags = true →
     resourceZoneName = normalizeResourceName (zoneName flags) →
     ∃ msg st', CmdCreateZone st = (Exit msg 1%Z, st') ∧ fs st' = fs st).
Proof.
  intros Hexists.
  assert (Hstep : ∀ st0, fs st0 = fs st →
            ∃ msg st', createImportListStep resourceZoneName st0 = (Exit msg 1%Z, st')
                       ∧ fs st' = fs st).
  { intros st0 Hfs. unfold createImportListStep. step_unfold.
    assert (Hrest : ∀ st1, fs st1 = fs st →
              ∃ msg st',
                match fetchRecordsets (recordNames st1) ∅ st1 with
                | (Ok recordsets, st2) => writeImportList resourceZoneName recordsets st2
                | (Exit msg code, st2) => (Exit msg code, st2)
                | (Panic, st2) => (Panic, st2)
                end = (Exit msg 1%Z, st') ∧ fs st' = fs st).
    { intros st1 Hfs1.
      destruct (fetchRecordsets_state (recordNames st1) ∅ st1) as [[fetched ->]|[msg ->]];
        [|by eexists _, _].
      destruct (writeImportList_exists resourceZoneName fetched st1 node)
        as [msg ->]; [by rewrite Hfs1|]. by eexists _, _. }
    destruct (decide (length (recordNames st0) = 0)).
    - destruct (GetZoneNames (zoneName flags)) as [err|names].
      + by eexists _, _.
      + apply (Hrest (set_recordNames names st0)). done.
    - by apply Hrest. }
  split; [by apply Hstep|].
  intros Hflag ->. unfold CmdCreateZone. step_unfold.
  destruct (GetZone (zoneName flags)) as [err|zoneObject]; [by eexists _, _|].
  rewrite Hflag.
  destruct (Hstep (set_contractid (ContractID zoneObject) st) eq_refl)
    as (msg & st' & -> & Hfs').
  by eexists _, _.
Qed.

(** *** The inventory of the config step *)


(** *** The layout check *)

Lemma length_pos_nonempty (text : string) :
  text ≠ EmptyString → 0 < String.length text.
Proof. destruct text; [done|]. simpl. lia. Qed.

(** The check itself: on a non-empty text of the other layout the rest
    of the config step is an exit, in the state it was entered in. *)
Lemma configFromScan_conflict (zoneObject : ZoneResponse) resourceZoneName
    configImportList zoneTypeMap (st : State) :
  zonetfConfig st ≠ EmptyString →
  ModSegment (fetchConfig flags) = negb (modularized (zonetfConfig st)) →
  configFromScan zoneObject resourceZoneName configImportList zoneTypeMap st
  = (Exit (if ModSegment (fetchConfig flags)
           then "Failed. Existing zone config is not modularized"
           else "Failed. Existing zone config is modularized") 1%Z, st).
Proof.
  intros Htext%length_pos_nonempty Hmismatch.
  unfold configFromScan. step_unfold.
  rewrite decide_True by done. unfold layoutCheck. step_unfold.
  destruct (ModSegment (fetchConfig flags)).
  - apply negb_sym in Hmismatch. cbn in Hmismatch. by rewrite Hmismatch.
  - apply negb_sym in Hmismatch. cbn in Hmismatch. by rewrite Hmismatch.
Qed.

(** A step that goes on hands its value and its state to the next. *)
Lemma M_bind_Ok {A B} (c : M A) (k : A → M B) (st : State) a st' :
  c st = (Ok a, st') → (c ≫= k) st = k a st'.
Proof. intros Hc. unfold mbind, M_bind, bind. by rewrite Hc. Qed.

(** Where no regular file is in its way the modules folder is there
    or is made, and the regular files stay as they are. *)
Lemma ensureModuleFolder_files (st : State) :
  (ModSegment (fetchConfig flags) = true →
   ∀ x, fs st !! filepath_Join (tfWorkPath flags) moduleFolder ≠ Some (File x)) →
  ∃ st1, ensureModuleFolder st = (Ok tt, st1)
    ∧ ∀ p content, fs st1 !! p = Some (File content) ↔ fs st !! p = Some (File content).
Proof.
  intros Hfolder. unfold ensureModuleFolder.
  destruct (ModSegment (fetchConfig flags)); [|by eexists].
  unfold createDirectory. step_unfold. unfold os_Stat. cbn [fs set_modulePath].
  destruct (fs st !! filepath_Join (tfWorkPath flags) moduleFolder)
    as [[|x]|] eqn:Hdir; cbv beta iota.
  - by eexists.
  - by destruct (Hfolder eq_refl x).
  - eexists. split; [done|]. cbn [fs set_fs set_modulePath]. intros p content.
    destruct (decide (filepath_Join (tfWorkPath flags) moduleFolder = p)) as [<-|Hp].
    + rewrite lookup_insert_eq, Hdir. split; done.
    + by rewrite lookup_insert_ne.
Qed.

(** The scan of a non-empty text of the other layout is followed by
    the exit, and the file system is the one that was scanned. *)
Lemma scanAndGenerate_conflict (zoneObject : ZoneResponse) resourceZoneName
    (st : State) l c :
  let text := scannedText c (String.length c) in
  fs st !! CreateTFFilename resourceZoneName (tfWorkPath flags) = Some (File c) →
  text ≠ EmptyString →
  ModSegment (fetchConfig flags) = negb (modularized text) →
  ∃ st',
    scanAndGenerate zoneObject resourceZoneName (Some l) st
    = (Exit (if ModSegment (fetchConfig flags)
             then "Failed. Existing zone config is not modularized"
             else "Failed. Existing zone config is modularized") 1%Z, st')
    ∧ fs st' = fs st.
Proof.
  intros text Hfile Htext Hmismatch. unfold scanAndGenerate.
  unfold reconcileStep_M at 1.
  erewrite M_bind_Ok;
    [|by rewrite (reconcile_existing_file l resourceZoneName (fs st) c Hfile)].
  cbn [r_importList r_tfConfig r_handle r_err r_typeMap].
  erewrite M_bind_Ok by reflexivity. erewrite M_bind_Ok by reflexivity.
  destruct (createImportList flags).
  - erewrite M_bind_Ok by reflexivity.
    rewrite configFromScan_conflict by done. eexists. split; [done|]. by destruct st.
  - erewrite M_bind_Ok by reflexivity.
    rewrite configFromScan_conflict by done. eexists. split; [done|]. by destruct st.
Qed.

(** The config step on a non-empty text of the other layout, from a
    state where the inventory can be read and, for [segmentConfig], no
    regular file is in the way of the modules folder. *)
Lemma createConfigStep_conflict
    (zoneObject : ZoneResponse) resourceZoneName (st : State) l c :
  let text := scannedText c (String.length c) in
  retrieveZoneImportList resourceZoneName st = inr (Some l) →
  fs st !! CreateTFFilename resourceZoneName (tfWorkPath flags) = Some (File c) →
  text ≠ EmptyString →
  (ModSegment (fetchConfig flags) = true →
   ∀ x, fs st !! filepath_Join (tfWorkPath flags) moduleFolder ≠ Some (File x)) →
  ModSegment (fetchConfig flags) = negb (modularized text) →
  ∃ st',
    createConfigStep zoneObject resourceZoneName st
    = (Exit (if ModSegment (fetchConfig flags)
             then "Failed. Existing zone config is not modularized"
             else "Failed. Existing zone config is modularized") 1%Z, st')
    ∧ ∀ p content, fs st' !! p = Some (File content) ↔ fs st !! p = Some (File content).
Proof.
  intros text Hinv Hfile Htext Hfolder Hmismatch.
  destruct (ensureModuleFolder_files st Hfolder) as (st1 & Hfolder1 & Hfiles).
  destruct (scanAndGenerate_conflict zoneObject resourceZoneName st1 l c)
    as (st2 & Hexit & Hfs); [by apply Hfiles|done|done|].
  exists st2. split.
  - unfold createConfigStep.
    erewrite M_bind_Ok by reflexivity. rewrite Hinv.
    by rewrite (M_bind_Ok _ _ _ _ _ Hfolder1).
  - intros p content. by rewrite Hfs.
Qed.

(** C5: a config step that scans a non-empty text of the other layout
    ends with an exit of code 1 before it writes: with [segmentConfig]
    on a text without the two module markers the message is that the
    existing config is not modularized, without [segmentConfig] on a
    text with the markers the message is that it is modularized; the
    regular files are the ones the step found, with their bytes.  The
    step is taken from a state where the inventory can be read and,
    for [segmentConfig], no regular file is in the way of the modules
    folder.  A command that goes straight to the config step ends with
    the same exit. *)
Theorem layout_conflict_is_fatal
    (zoneObject : ZoneResponse) resourceZoneName (st : State) l c :
  let tfFilename := CreateTFFilename resourceZoneName (tfWorkPath flags) in
  let text := scannedText c (String.length c) in
  let segment := ModSegment (fetchConfig flags) in
  let failure : Outcome unit :=
    Exit (if segment
          then "Failed. Existing zone config is not modularized"
          else "Failed. Existing zone config is modularized") 1%Z in
  retrieveZoneImportList resourceZoneName st = inr (Some l) →
  fs st !! tfFilename = Some (File c) →
  text ≠ EmptyString →
  (segment = true →
   ∀ x, fs st !! filepath_Join (tfWorkPath flags) moduleFolder ≠ Some (File x)) →
  segment = negb (modularized text) →
  (∃ st',
     createConfigStep zoneObject resourceZoneName st = (failure, st')
     ∧ ∀ p content, fs st' !! p = Some (File content) ↔ fs st !! p = Some (File content))
  ∧ (createImportList flags = false →
     createConfig flags = true →
     GetZone (zoneName flags) = inr zoneObject →
     resourceZoneName = normalizeResourceName (zoneName flags) →
     ∃ st',
       CmdCreateZone st = (failure, st')
       ∧ ∀ p content, fs st' !! p = Some (File content) ↔ fs st !! p = Some (File content)).
Proof.
  intros tfFilename text segment failure Hinv Hfile Htext Hfolder Hmismatch.
  split; [by apply (createConfigStep_conflict zoneObject resourceZoneName st l c)|].
  intros Hlist Hconfig Hzone ->.
  destruct (createConfigStep_conflict zoneObject
              (normalizeResourceName (zoneName flags))
              (set_contractid (ContractID zoneObject) st) l c)
    as (st' & Hrun & Hfiles); try done.
  exists st'. split; [|exact Hfiles].
  unfold CmdCreateZone. rewrite Hzone, Hlist, Hconfig.
  erewrite M_bind_Ok by reflexivity. erewrite M_bind_Ok by reflexivity.
  unfold mbind, M_bind, bind. by rewrite Hrun.
Qed.

(** *** The scan and the writes that follow it *)

Lemma substring_skip (a b : string) (n : nat) :
  String.substring (String.length a) n (a +:+ b) = String.substring 0 n b.
Proof. induction a as [|x a IH]; simpl; [done|]. by rewrite IH. Qed.

Lemma substring_zero (n : nat) (c : string) : String.substring n 0 c = EmptyString.
Proof.
  revert n. induction c as [|x c IH]; intros [|n]; simpl; auto.
Qed.

(** The scan of a file that ends with the byte [last] returns the
    bytes before it. *)
Lemma scan_drops_last_byte (l : zoneImportListStruct) zoneName (fs : FS) body last :
  fs !! CreateTFFilename zoneName (tfWorkPath flags)
    = Some (File (body +:+ String last EmptyString)) →
  ∃ rc, reconcileZoneResourceTargets (Some l) zoneName fs = (Ok rc, fs)
    ∧ r_err rc = None
    ∧ r_handle rc = Some (mkHandle (CreateTFFilename zoneName (tfWorkPath flags)) 0)
    ∧ r_tfConfig rc = body.
Proof.
  intros Hfile. eexists. split; [by apply reconcile_existing_file|].
  cbn [r_err r_handle r_tfConfig]. by rewrite scannedText_snoc.
Qed.

(** So the text scanned from a file that is not empty is never the
    content of the file: the content is the text and one byte more. *)
Lemma scan_of_nonempty_file (l : zoneImportListStruct) zoneName (fs : FS) c :
  c ≠ EmptyString →
  fs !! CreateTFFilename zoneName (tfWorkPath flags) = Some (File c) →
  ∃ rc last, reconcileZoneResourceTargets (Some l) zoneName fs = (Ok rc, fs)
    ∧ r_err rc = None
    ∧ c = r_tfConfig rc +:+ String last EmptyString
    ∧ r_tfConfig rc ≠ c.
Proof.
  intros (body & last & ->)%string_snoc Hfile.
  destruct (scan_drops_last_byte l zoneName fs body last Hfile)
    as (rc & Hrun & Herr & _ & Htext).
  exists rc, last. rewrite Htext. repeat split; try done.
  intros Heq. apply (f_equal String.length) in Heq.
  rewrite length_append in Heq. simpl in Heq. lia.
Qed.

(** Writing the scanned text back at offset 0 leaves the file as it is. *)
Lemma writeAt_scanned (body : string) (last : ascii) :
  writeAt (body +:+ String last EmptyString) 0 body = body +:+ String last EmptyString.
Proof.
  unfold writeAt, slice. rewrite length_append. simpl.
  replace (0 - (String.length body + 1)) with 0 by lia.
  replace (String.length body + 1 - String.length body) with 1 by lia.
  simpl. rewrite substring_skip. by destruct body.
Qed.

(** Writing after it replaces the last byte of the file. *)
Lemma writeAt_after_scanned (body emitted : string) (last : ascii) :
  emitted ≠ EmptyString →
  writeAt (body +:+ String last EmptyString) (String.length body) emitted
  = body +:+ emitted.
Proof.
  intros Hemitted%length_pos_nonempty.
  unfold writeAt, slice. rewrite length_append. simpl.
  replace (String.length body - (String.length body + 1)) with 0 by lia.
  replace (String.length body + 1 - (String.length body + String.length emitted))
    with 0 by lia.
  rewrite Nat.sub_0_r, substring_prefix, substring_zero. simpl.
  by rewrite append_nil_r.
Qed.

(** After the scan of a file of two bytes or more, the config step
    writes the scanned text at offset 0 (line 812), which changes no
    byte and leaves the handle on the last byte of the file; the next
    text written through the handle starts on that byte. *)
Lemma append_after_scan (st : State) tfFilename body last emitted :
  fs st !! tfFilename = Some (File (body +:+ String last EmptyString)) →
  zoneTFfileHandle st = Some (mkHandle tfFilename 0) →
  emitted ≠ EmptyString →
  ∃ st1 st2,
    appendRootModuleTF body st = (Ok None, st1)
    ∧ fs st1 = fs st
    ∧ zoneTFfileHandle st1 = Some (mkHandle tfFilename (String.length body))
    ∧ appendRootModuleTF emitted st1 = (Ok None, st2)
    ∧ fs st2 !! tfFilename = Some (File (body +:+ emitted)).
Proof.
  intros Hfile Hhandle Hemitted.
  unfold appendRootModuleTF. step_unfold. rewrite Hhandle.
  unfold File_Write. cbn [h_path h_off fs set_fs fst snd]. rewrite Hfile.
  cbn [fst snd]. rewrite writeAt_scanned, (insert_id _ _ _ Hfile).
  eexists _, _. split; [done|]. split; [by destruct st|]. split; [done|].
  cbn [zoneTFfileHandle set_zoneTFfileHandle set_fs fs h_path h_off].
  rewrite Hfile. cbn [fst snd plus fs set_fs set_zoneTFfileHandle].
  split; [done|]. cbn [fs set_fs set_zoneTFfileHandle].
  by rewrite lookup_insert_eq, writeAt_after_scanned.
Qed.

(** ** Further properties of the command *)

(** *** Folders and module files *)


Lemma length_substring_le (n : nat) (s : string) :
  String.length (String.substring 0 n s) ≤ n.
Proof.
  revert s. induction n as [|n IH]; intros [|c s]; simpl; try lia.
  specialize (IH s). lia.
Qed.

Lemma createNamedModulePath_cases modName :
  createNamedModulePath modName
  = if decide (String.length (filepath_Join3 (tfWorkPath flags) moduleFolder
                                (normalizeResourceName modName)) < 2)
    then Panic
    else Ok (filepath_FromSlash
               ("./" +:+ filepath_Join3 (tfWorkPath flags) moduleFolder
                           (normalizeResourceName modName))).
Proof.
  unfold createNamedModulePath.
  set (fpath := filepath_Join3 (tfWorkPath flags) moduleFolder
                  (normalizeResourceName modName)).
  assert (H1 : String.eqb (slice fpath 0 1) "./" = false).
  { apply String.eqb_neq. intros Heq. apply (f_equal String.length) in Heq.
    pose proof (length_substring_le 1 fpath) as Hle.
    unfold slice in Heq. simpl in Heq. simpl in Hle. lia. }
  assert (H2 : String.eqb (slice fpath 0 2) "../" = false).
  { apply String.eqb_neq. intros Heq. apply (f_equal String.length) in Heq.
    pose proof (length_substring_le 2 fpath) as Hle.
    unfold slice in Heq. simpl in Heq. simpl in Hle. lia. }
  rewrite H1, H2. cbn [negb].
  repeat case_decide; try done; lia.
Qed.

(** X2: the guard of [createNamedModulePath] never skips the prefix: a
    slice of one byte is compared with a literal of two bytes and a
    slice of two bytes with a literal of three, so for every joined path
    of two bytes or more the result is the path with [./] put in front,
    also when the path already starts with [./] or [../]; on a shorter
    path the slice expressions panic. *)
Theorem createNamedModulePath_always_prefixes modName :
  let fpath :=
    filepath_Join3 (tfWorkPath flags) moduleFolder (normalizeResourceName modName) in
  createNamedModulePath modName
  = if decide (String.length fpath < 2) then Panic
    else Ok (filepath_FromSlash ("./" +:+ fpath)).
Proof. intros fpath. apply createNamedModulePath_cases. Qed.

(** *** The scan and the loop *)

(** X5: the scan leaves every node of the file system as it is; the one
    node it can add is the target file, empty; and when it returns no
    error its handle is on the target file at offset 0. *)
Theorem scan_changes_no_node zoneImportList zoneName (fs : FS) :
  let tfFilename := CreateTFFilename zoneName (tfWorkPath flags) in
  let run := reconcileZoneResourceTargets zoneImportList zoneName fs in
  (∀ p node, fs !! p = Some node → run.2 !! p = Some node)
  ∧ (∀ p node, run.2 !! p = Some node →
       fs !! p = Some node ∨ (p = tfFilename ∧ node = File EmptyString))
  ∧ (∀ rc, run.1 = Ok rc → r_err rc = None →
       r_handle rc = Some (mkHandle tfFilename 0)).
Proof.
  intros tfFilename run. subst run. unfold reconcileZoneResourceTargets.
  fold tfFilename. unfold os_OpenFile_create_rdwr, os_Stat, File_Read.
  destruct (fs !! tfFilename) as [[|content]|] eqn:Hnode; cbn [fst snd h_path h_off].
  - repeat split; try done; [by left|]. by intros rc [= <-].
  - rewrite Hnode. cbn [fst snd].
    destruct zoneImportList as [l|]; cbn [fst snd].
    + repeat split; try done; [by left|]. by intros rc [= <-].
    + repeat split; try done. by left.
  - rewrite lookup_insert_eq. cbn [fst snd].
    assert (Hkeep : ∀ p node, fs !! p = Some node →
              <[tfFilename := File EmptyString]> fs !! p = Some node).
    { intros p node Hp. rewrite lookup_insert_ne; [done|]. congruence. }
    assert (Hnew : ∀ p node, <[tfFilename := File EmptyString]> fs !! p = Some node →
              fs !! p = Some node ∨ (p = tfFilename ∧ node = File EmptyString)).
    { intros p node Hp. destruct (decide (tfFilename = p)) as [<-|Hne].
      - rewrite lookup_insert_eq in Hp. right. by injection Hp as <-.
      - rewrite lookup_insert_ne in Hp by done. by left. }
    destruct zoneImportList as [l|]; cbn [fst snd].
    + repeat split; try done. by intros rc [= <-].
    + repeat split; done.
Qed.

Lemma filter_filter_weaker {A} (P Q : A → Prop)
    `{∀ x, Decision (P x)} `{∀ x, Decision (Q x)} (l : list A) :
  (∀ x, Q x → P x) → filter Q (filter P l) = filter Q l.
Proof.
  intros HQP. induction l as [|x l IH]; [done|].
  destruct (decide (P x)) as [HP|HP].
  - rewrite (filter_cons_True P) by done.
    destruct (decide (Q x)).
    + rewrite !(filter_cons_True Q) by done. by rewrite IH.
    + rewrite !(filter_cons_False Q) by done. exact IH.
  - rewrite (filter_cons_False P) by done.
    rewrite (filter_cons_False Q); [exact IH|]. intros HQ. by apply HP, HQP.
Qed.

(** What a longer text leaves undeclared, the shorter text left
    undeclared. *)
Lemma undeclared_app tfConfig emitted zoneName zname ntype :
  undeclared (tfConfig +:+ emitted) zoneName zname ntype →
  undeclared tfConfig zoneName zname ntype.
Proof.
  unfold undeclared, declaredIn. intros Hlong.
  destruct (Contains tfConfig
              (quoted (createUniqueRecordsetName zoneName zname ntype))) eqn:E; [|done].
  apply (Contains_app_l _ emitted) in E. congruence.
Qed.

(** X8: reconciliation composes along a growing text.  Revising a list
    that was already revised against [tfConfig], this time against
    [tfConfig] followed by more text, gives the list and the type map
    that revising the inventory itself against the longer text gives; with
    no more text, revising twice is revising once. *)
Theorem reconcile_revised_list tfConfig emitted zoneName (inventory : gmap string Types) :
  let revised :=
    (reconcileRecordsets createUniqueRecordsetName tfConfig zoneName inventory).1 in
  reconcileRecordsets createUniqueRecordsetName (tfConfig +:+ emitted) zoneName revised
  = reconcileRecordsets createUniqueRecordsetName (tfConfig +:+ emitted) zoneName inventory.
Proof.
  intros revised. subst revised. rewrite !reconcileRecordsets_spec. cbn [fst].
  f_equal; apply map_eq; intros zname.
  - rewrite !ResidualSet_lookup.
    destruct (inventory !! zname) as [typeList|]; [|done]. simpl. f_equal.
    apply filter_filter_weaker. intros ntype. apply undeclared_app.
  - rewrite !ResidualTypeMap_lookup, ResidualSet_lookup.
    destruct (inventory !! zname) as [typeList|]; [|done]. simpl. do 3 f_equal.
    apply filter_filter_weaker. intros ntype. apply undeclared_app.
Qed.

(** X7: the two results of the loop agree, in whatever order the
    inventory is visited: both keep every record name of the inventory
    and no other, also a name whose list becomes empty, and the type
    map of a name holds [true] at exactly the types of its revised list
    and holds nothing else. *)
Theorem revised_list_and_type_map_agree
    tfConfig zoneName (inventory : gmap string Types) order :
  order ≡ₚ map_to_list inventory →
  let r := reconcileLoop createUniqueRecordsetName tfConfig zoneName order inventory in
  dom r.1 = dom inventory
  ∧ dom r.2 = dom inventory
  ∧ ∀ zname revised typeMap,
      r.1 !! zname = Some revised → r.2 !! zname = Some typeMap →
      ∀ ntype, typeMap !! ntype = if decide (ntype ∈ revised) then Some true else None.
Proof.
  intros Hperm r. subst r. rewrite reconcileLoop_spec by done. cbn [fst snd].
  split; [|split].
  - apply set_eq. intros zname. rewrite !elem_of_dom, ResidualSet_lookup.
    by rewrite fmap_is_Some.
  - apply set_eq. intros zname. rewrite !elem_of_dom, ResidualTypeMap_lookup.
    by rewrite fmap_is_Some.
  - intros zname revised typeMap. rewrite ResidualSet_lookup, ResidualTypeMap_lookup.
    destruct (inventory !! zname) as [typeList|]; [|done]. simpl.
    intros [= <-] [= <-] ntype. rewrite lookup_gset_to_gmap.
    case_decide.
    + by rewrite option_guard_True by list_solver.
    + by rewrite option_guard_False by list_solver.
Qed.

(** *** Files written by the steps *)

Lemma writeAt_empty (data : string) : writeAt EmptyString 0 data = data.
Proof.
  unfold writeAt, slice. cbn [String.length Nat.sub Nat.add replicate_byte].
  rewrite !substring_zero. cbn [String.append]. apply append_nil_r.
Qed.

Lemma writeAt_end (content data : string) :
  writeAt content (String.length content) data = content +:+ data.
Proof.
  unfold writeAt, slice.
  replace (String.length content - 0) with (String.length content) by lia.
  replace (String.length content - String.length content) with 0 by lia.
  replace (String.length content - (String.length content + String.length data))
    with 0 by lia.
  rewrite substring_full, substring_zero. simpl. by rewrite append_nil_r.
Qed.

Lemma createDirectory_cases dirName (st : State) :
  createDirectory dirName st
  = match fs st !! dirName with
    | Some Dir => (Ok true, st)
    | Some (File _) => (Ok false, st)
    | None => (Ok true, set_fs (<[dirName := Dir]> (fs st)) st)
    end.
Proof.
  unfold createDirectory. step_unfold. unfold os_Stat.
  by destruct (fs st !! dirName) as [[|content]|].
Qed.

(** A file created and written holds the text, whatever it held. *)
Lemma createAndWrite_file name text msgCreate msgWrite (st : State) :
  fs st !! name ≠ Some Dir →
  createAndWrite name text msgCreate msgWrite st
  = (Ok tt, set_fs (<[name := File text]> (fs st)) st).
Proof.
  intros Hnode. unfold createAndWrite, writeString. step_unfold. unfold os_Create.
  destruct (fs st !! name) as [[|content]|] eqn:E; [done| |];
    cbn [fst snd fs set_fs]; unfold File_Write; cbn [h_path h_off];
    rewrite lookup_insert_eq; cbn [fst snd];
    by rewrite insert_insert_eq, writeAt_empty.
Qed.

Lemma createAndWrite_directory name text msgCreate msgWrite (st : State) :
  fs st !! name = Some Dir →
  ∃ st', createAndWrite name text msgCreate msgWrite st = (Exit msgCreate 1%Z, st')
         ∧ fs st' = fs st.
Proof.
  intros Hnode. unfold createAndWrite. step_unfold. unfold os_Create.
  rewrite Hnode. cbn [fst snd]. by eexists.
Qed.

(** X16: [appendRootModuleTF] is an append when the handle is at the
    end of its file: the text goes after the bytes of the file, none of
    them changes, and the handle is at the end again, so a sequence of
    such writes keeps everything written before. *)
Theorem appendRootModuleTF_at_end (st : State) path content text :
  fs st !! path = Some (File content) →
  zoneTFfileHandle st = Some (mkHandle path (String.length content)) →
  ∃ st',
    appendRootModuleTF text st = (Ok None, st')
    ∧ fs st' = <[path := File (content +:+ text)]> (fs st)
    ∧ zoneTFfileHandle st'
      = Some (mkHandle path (String.length (content +:+ text))).
Proof.
  intros Hfile Hhandle. unfold appendRootModuleTF. step_unfold. rewrite Hhandle.
  unfold File_Write. cbn [h_path h_off fs set_fs fst snd]. rewrite Hfile.
  cbn [fst snd]. rewrite writeAt_end, length_append.
  eexists. split; [done|]. split; done.
Qed.

(** *** Module files *)

(** [createModuleTF] by cases: a short path panics; a regular file in
    the place of the folder is an error; otherwise the folder is there
    or is made, and the file is written unless its path is taken. *)
Lemma createModuleTF_cases modName content (st : State) :
  let fpath :=
    filepath_Join3 (tfWorkPath flags) moduleFolder (normalizeResourceName modName) in
  let namedmodulePath := filepath_FromSlash ("./" +:+ fpath) in
  let moduleFilename :=
    filepath_Join namedmodulePath (normalizeResourceName modName +:+ ".tf") in
  let st0 :=
    match fs st !! namedmodulePath with
    | None => set_fs (<[namedmodulePath := Dir]> (fs st)) st
    | Some _ => st
    end in
  createModuleTF modName content st
  = if decide (String.length fpath < 2) then (Panic, st)
    else
      match fs st !! namedmodulePath with
      | Some (File _) =>
          (Ok (Some (Err ("Failed to create name module folder: " +:+ namedmodulePath))),
           st)
      | _ =>
          match fs st0 !! moduleFilename with
          | Some _ =>
              (Ok (Some (Err ("Zone record name config already exists: "
                                +:+ moduleFilename))), st0)
          | None =>
              (Ok None, set_fs (<[moduleFilename := File content]> (fs st0)) st0)
          end
      end.
Proof.
  intros fpath namedmodulePath moduleFilename st0.
  unfold createModuleTF. step_unfold. rewrite createNamedModulePath_cases.
  fold fpath. case_decide; [done|]. fold namedmodulePath.
  rewrite createDirectory_cases. fold moduleFilename.
  subst st0.
  destruct (fs st !! namedmodulePath) as [[|bytes]|] eqn:Hdir; cbn [negb];
    try done; unfold os_Stat.
  - destruct (fs st !! moduleFilename) as [node|] eqn:Hfile; [done|].
    unfold os_Create, writeString, File_Write. step_unfold. rewrite Hfile.
    cbn [fst snd fs set_fs h_path h_off]. rewrite lookup_insert_eq.
    cbn [fst snd fs set_fs]. by rewrite insert_insert_eq, writeAt_empty.
  - destruct (fs (set_fs (<[namedmodulePath := Dir]> (fs st)) st) !! moduleFilename)
      as [node|] eqn:Hfile; [done|].
    unfold os_Create, writeString, File_Write. step_unfold. rewrite Hfile.
    cbn [fst snd fs set_fs h_path h_off]. rewrite lookup_insert_eq.
    cbn [fst snd fs set_fs]. by rewrite insert_insert_eq, writeAt_empty.
Qed.

(** X3: [createModuleTF] never replaces a module file: when the path of
    the file is taken, by a file or by a folder, it returns an error and
    every regular file keeps its bytes. *)
Theorem createModuleTF_keeps_existing modName content (st : State) node :
  let fpath :=
    filepath_Join3 (tfWorkPath flags) moduleFolder (normalizeResourceName modName) in
  let namedmodulePath := filepath_FromSlash ("./" +:+ fpath) in
  let moduleFilename :=
    filepath_Join namedmodulePath (normalizeResourceName modName +:+ ".tf") in
  2 ≤ String.length fpath →
  fs st !! moduleFilename = Some node →
  ∃ err st',
    createModuleTF modName content st = (Ok (Some err), st')
    ∧ ∀ p bytes, fs st' !! p = Some (File bytes) ↔ fs st !! p = Some (File bytes).
Proof.
  intros fpath namedmodulePath moduleFilename Hlen Hnode.
  rewrite createModuleTF_cases. fold fpath namedmodulePath moduleFilename.
  rewrite decide_False by lia.
  destruct (fs st !! namedmodulePath) as [[|bytes]|] eqn:Hdir.
  - rewrite Hnode. by eexists _, _.
  - by eexists _, _.
  - cbn [fs set_fs].
    assert (Hne : namedmodulePath ≠ moduleFilename) by congruence.
    rewrite lookup_insert_ne, Hnode by done. eexists _, _. split; [done|].
    intros p bytes. cbn [fs set_fs].
    destruct (decide (namedmodulePath = p)) as [<-|Hp].
    + rewrite lookup_insert_eq, Hdir. split; done.
    + by rewrite lookup_insert_ne.
Qed.

(** X4: a module file is written once.  When [createModuleTF] returns
    no error the file of the module holds the content, and every later
    call for the same name returns an error and leaves the state as it
    is, so the file keeps the content of the first call. *)
Theorem createModuleTF_once modName content (st st1 : State) :
  let fpath :=
    filepath_Join3 (tfWorkPath flags) moduleFolder (normalizeResourceName modName) in
  let moduleFilename :=
    filepath_Join (filepath_FromSlash ("./" +:+ fpath))
      (normalizeResourceName modName +:+ ".tf") in
  createModuleTF modName content st = (Ok None, st1) →
  fs st1 !! moduleFilename = Some (File content)
  ∧ ∀ content', ∃ err, createModuleTF modName content' st1 = (Ok (Some err), st1).
Proof.
  intros fpath moduleFilename.
  set (namedmodulePath := filepath_FromSlash ("./" +:+ fpath)).
  fold namedmodulePath in moduleFilename.
  rewrite createModuleTF_cases. fold fpath namedmodulePath moduleFilename.
  case_decide; [done|].
  assert (Hagain : ∀ content',
    fs st1 !! moduleFilename = Some (File content) →
    fs st1 !! namedmodulePath = Some Dir →
    ∃ err, createModuleTF modName content' st1 = (Ok (Some err), st1)).
  { intros content' Hfile Hdir. rewrite createModuleTF_cases.
    fold fpath namedmodulePath moduleFilename.
    rewrite decide_False by done. rewrite Hdir, Hfile. by eexists. }
  destruct (fs st !! namedmodulePath) as [[|bytes]|] eqn:Hdir; [| done |].
  - destruct (fs st !! moduleFilename) as [node|] eqn:Hfile; [done|].
    intros [= <-]. cbn [fs set_fs]. rewrite lookup_insert_eq. split; [done|].
    intros content'. apply Hagain; cbn [fs set_fs].
    + by rewrite lookup_insert_eq.
    + rewrite lookup_insert_ne; [done|]. congruence.
  - cbn [fs set_fs].
    destruct (<[namedmodulePath := Dir]> (fs st) !! moduleFilename)
      as [node|] eqn:Hfile; [done|].
    intros [= <-]. cbn [fs set_fs]. rewrite lookup_insert_eq. split; [done|].
    intros content'. apply Hagain; cbn [fs set_fs].
    + by rewrite lookup_insert_eq.
    + assert (Hne : moduleFilename ≠ namedmodulePath).
      { intros Heq. rewrite Heq, lookup_insert_eq in Hfile. done. }
      by rewrite lookup_insert_ne, lookup_insert_eq.
Qed.

(** *** The inventory step, further *)

(** X12: with the [namesOnly] flag the loop over the record names asks
    nothing about types: whatever the API would answer, it ends with a
    map that has exactly the given names, each with an empty list of
    types, in the state it started in. *)
Theorem namesOnly_inventory_has_no_types names (st : State) :
  NamesOnly (fetchConfig flags) = true →
  ∃ recordsets,
    fetchRecordsets names ∅ st = (Ok recordsets, st)
    ∧ dom recordsets = list_to_set names
    ∧ ∀ zname, zname ∈ names → recordsets !! zname = Some [].
Proof.
  intros HnamesOnly.
  assert (Hgen : ∀ acc : gmap string Types,
            ∃ recordsets, fetchRecordsets names acc st = (Ok recordsets, st)
              ∧ ∀ zname, recordsets !! zname
                         = if decide (zname ∈ names) then Some [] else acc !! zname).
  { induction names as [|zname names IH]; intros acc.
    - by exists acc.
    - cbn [fetchRecordsets]. rewrite HnamesOnly.
      destruct (IH (<[zname := []]> acc)) as (recordsets & -> & Hlookup).
      exists recordsets. split; [done|]. intros z. rewrite Hlookup.
      destruct (decide (z ∈ names)) as [Hin|Hin].
      + by rewrite decide_True by (apply elem_of_cons; by right).
      + destruct (decide (z = zname)) as [->|Hne].
        * rewrite lookup_insert_eq.
          by rewrite decide_True by (apply elem_of_cons; by left).
        * rewrite lookup_insert_ne by done.
          by rewrite decide_False by (by apply not_elem_of_cons). }
  destruct (Hgen ∅) as (recordsets & Hrun & Hlookup).
  exists recordsets. split; [done|]. split.
  - apply set_eq. intros z. rewrite elem_of_dom, Hlookup, elem_of_list_to_set.
    case_decide; [by split|]. rewrite lookup_empty. split; [by intros [? ?]|done].
  - intros z Hin. by rewrite Hlookup, decide_True.
Qed.

(** The end of the inventory step by cases. *)
Lemma writeImportList_cases resourceZoneName recordsets (st : State) :
  let importListFilename :=
    createImportListFilename (tfWorkPath flags) resourceZoneName in
  let l := mkImportList (zoneName flags) recordsets in
  (∃ json,
     MarshalIndent_importList l = inr json
     ∧ fs st !! importListFilename = None
     ∧ writeImportList resourceZoneName recordsets st
       = (Ok tt, set_fs (<[importListFilename := File json]> (fs st))
                   (set_fullZoneImportList (Some l) st)))
  ∨ (∃ msg st', writeImportList resourceZoneName recordsets st = (Exit msg 1%Z, st')
                ∧ fs st' = fs st).
Proof.
  intros importListFilename l. unfold writeImportList. step_unfold. unfold os_Stat.
  fold importListFilename. fold l.
  destruct (fs st !! tfWorkPath flags) as [[|?]|]; cbv beta;
    try (right; by eexists _, _).
  destruct (fs st !! importListFilename) as [node|] eqn:Hfile;
    [right; by eexists _, _|].
  destruct (MarshalIndent_importList l) as [err|json] eqn:Hjson;
    [right; by eexists _, _|].
  left. exists json. split; [done|]. split; [done|].
  rewrite createAndWrite_file; [done|]. cbn [fs set_fullZoneImportList].
  by rewrite Hfile.
Qed.

Lemma createImportListStep_cases resourceZoneName (st : State) :
  let importListFilename :=
    createImportListFilename (tfWorkPath flags) resourceZoneName in
  (∃ recordsets json st',
     createImportListStep resourceZoneName st = (Ok tt, st')
     ∧ MarshalIndent_importList (mkImportList (zoneName flags) recordsets) = inr json
     ∧ fs st !! importListFilename = None
     ∧ fs st' = <[importListFilename := File json]> (fs st)
     ∧ fullZoneImportList st' = Some (mkImportList (zoneName flags) recordsets))
  ∨ (∃ msg st', createImportListStep resourceZoneName st = (Exit msg 1%Z, st')
                ∧ fs st' = fs st).
Proof.
  intros importListFilename.
  assert (Hrest : ∀ st1 : State, fs st1 = fs st →
    (∃ recordsets json st',
       (recordsets ← fetchRecordsets (recordNames st1) ∅;
        writeImportList resourceZoneName recordsets) st1 = (Ok tt, st')
       ∧ MarshalIndent_importList (mkImportList (zoneName flags) recordsets) = inr json
       ∧ fs st !! importListFilename = None
       ∧ fs st' = <[importListFilename := File json]> (fs st)
       ∧ fullZoneImportList st' = Some (mkImportList (zoneName flags) recordsets))
    ∨ (∃ msg st',
         (recordsets ← fetchRecordsets (recordNames st1) ∅;
          writeImportList resourceZoneName recordsets) st1 = (Exit msg 1%Z, st')
         ∧ fs st' = fs st)).
  { intros st1 Hfs.
    destruct (fetchRecordsets_state (recordNames st1) ∅ st1)
      as [[fetched Hfetch]|[msg Hfetch]].
    - rewrite (M_bind_Ok _ _ _ _ _ Hfetch).
      destruct (writeImportList_cases resourceZoneName fetched st1)
        as [(json & Hjson & Hnone & Hrun)|(msg & st' & Hrun & Hfs')].
      + left. exists fetched, json. eexists. split; [exact Hrun|].
        split; [done|]. fold importListFilename in Hnone. rewrite <- Hfs.
        split; [done|]. split; done.
      + right. exists msg, st'. split; [done|]. congruence.
    - right. exists msg, st1. split; [|done].
      unfold mbind, M_bind, bind. by rewrite Hfetch. }
  unfold createImportListStep.
  erewrite M_bind_Ok by reflexivity.
  destruct (decide (length (recordNames st) = 0)).
  - destruct (GetZoneNames (zoneName flags)) as [err|names].
    + right. by eexists _, _.
    + erewrite M_bind_Ok by reflexivity. erewrite M_bind_Ok by reflexivity.
      by apply (Hrest (set_recordNames names st)).
  - erewrite M_bind_Ok by reflexivity. erewrite M_bind_Ok by reflexivity.
    by apply Hrest.
Qed.

(** X11: the inventory step writes one file at most.  It ends well or
    with an exit of code 1, never with a panic; every path other than
    the list file keeps its node; and when the step ends well the list
    file is new and holds the JSON text of the list that is now in
    [fullZoneImportList], whose zone is the zone of the command. *)
Theorem inventory_step_writes_list_file_only resourceZoneName (st : State) :
  let importListFilename :=
    createImportListFilename (tfWorkPath flags) resourceZoneName in
  ∃ outcome st',
    createImportListStep resourceZoneName st = (outcome, st')
    ∧ (outcome = Ok tt ∨ ∃ msg, outcome = Exit msg 1%Z)
    ∧ delete importListFilename (fs st') = delete importListFilename (fs st)
    ∧ (outcome = Ok tt →
       fs st !! importListFilename = None
       ∧ ∃ l json,
           fullZoneImportList st' = Some l
           ∧ Zone l = zoneName flags
           ∧ MarshalIndent_importList l = inr json
           ∧ fs st' !! importListFilename = Some (File json)).
Proof.
  intros importListFilename.
  destruct (createImportListStep_cases resourceZoneName st)
    as [(recordsets & json & st' & Hrun & Hjson & Hnone & Hfs & Hlist)
       |(msg & st' & Hrun & Hfs)].
  - exists (Ok tt), st'. split; [done|]. split; [by left|].
    fold importListFilename in Hnone, Hfs. rewrite Hfs. split.
    + by rewrite delete_insert_eq.
    + intros _. split; [done|]. eexists _, json. rewrite lookup_insert_eq. done.
  - exists (Exit msg 1%Z), st'. split; [done|]. split; [right; by eexists|].
    rewrite Hfs. split; [done|]. intros Hok. discriminate Hok.
Qed.

(** *** The config step, further *)

(** X9: a config run needs an inventory.  Without the [resources] flag
    and without [configOnly], when the side file of the zone is
    missing, is a folder, or holds a text that does not decode, the
    config step ends with an exit of code 1 in the state it started in:
    no target file and no modules folder are made. *)
Theorem config_step_needs_inventory
    (zoneObject : ZoneResponse) resourceZoneName (st : State) :
  let importListFilename :=
    createImportListFilename (tfWorkPath flags) resourceZoneName in
  createImportList flags = false →
  ConfigOnly (fetchConfig flags) = false →
  fs st !! importListFilename = None
  ∨ fs st !! importListFilename = Some Dir
  ∨ (∃ data err, fs st !! importListFilename = Some (File data)
                 ∧ Unmarshal_importList data = inl err) →
  createConfigStep zoneObject resourceZoneName st
  = (Exit "Failed to read json zone resources file" 1%Z, st).
Proof.
  intros importListFilename Hlist Honly Hfile. unfold createConfigStep.
  erewrite M_bind_Ok by reflexivity.
  unfold retrieveZoneImportList. rewrite Hlist, Honly. fold importListFilename.
  unfold os_Stat, ioutil_ReadFile.
  destruct Hfile as [->|[->|(data & err & -> & ->)]]; done.
Qed.

(** X21: with [segmentConfig], a regular file in the place of the
    modules folder stops the config step before the scan: the exit has
    code 1 and the file system is the one the step found, so the target
    file is not created. *)
Theorem modules_folder_in_the_way
    (zoneObject : ZoneResponse) resourceZoneName (st : State) zoneImportList bytes :
  retrieveZoneImportList resourceZoneName st = inr zoneImportList →
  ModSegment (fetchConfig flags) = true →
  fs st !! filepath_Join (tfWorkPath flags) moduleFolder = Some (File bytes) →
  ∃ st',
    createConfigStep zoneObject resourceZoneName st
    = (Exit "Failed to create modules folder." 1%Z, st')
    ∧ fs st' = fs st.
Proof.
  intros Hinv Hseg Hfile. unfold createConfigStep.
  erewrite M_bind_Ok by reflexivity. rewrite Hinv.
  unfold ensureModuleFolder. rewrite Hseg.
  unfold mbind at 1. unfold M_bind, bind.
  erewrite M_bind_Ok by reflexivity.
  erewrite M_bind_Ok by (rewrite createDirectory_cases; cbn [fs set_modulePath];
                         rewrite Hfile; reflexivity).
  by eexists.
Qed.

(** X6: a folder in the place of the target file.  The scan returns an
    error, no handle, the empty text and the import list it was given,
    also a nil one, and it touches nothing; the config step then ends
    with an exit of code 1 and the same file system. *)
Theorem target_is_a_folder
    (zoneObject : ZoneResponse) resourceZoneName (st : State) zoneImportList :
  fs st !! CreateTFFilename resourceZoneName (tfWorkPath flags) = Some Dir →
  reconcileZoneResourceTargets zoneImportList resourceZoneName (fs st)
  = (Ok (mkReconciled None EmptyString zoneImportList ∅ (Some EISDIR)), fs st)
  ∧ ∃ st',
      scanAndGenerate zoneObject resourceZoneName zoneImportList st
      = (Exit "Failed to open/create zone config file." 1%Z, st')
      ∧ fs st' = fs st.
Proof.
  intros Hdir.
  assert (Hscan : reconcileZoneResourceTargets zoneImportList resourceZoneName (fs st)
                  = (Ok (mkReconciled None EmptyString zoneImportList ∅ (Some EISDIR)),
                     fs st)).
  { unfold reconcileZoneResourceTargets, os_OpenFile_create_rdwr. by rewrite Hdir. }
  split; [exact Hscan|].
  unfold scanAndGenerate.
  erewrite M_bind_Ok by (unfold reconcileStep_M; rewrite Hscan; reflexivity).
  cbn [r_importList r_tfConfig r_handle r_err r_typeMap fst snd].
  erewrite M_bind_Ok by reflexivity. erewrite M_bind_Ok by reflexivity.
  destruct (createImportList flags).
  - erewrite M_bind_Ok by reflexivity. eexists. split; [done|]. done.
  - erewrite M_bind_Ok by reflexivity. eexists. split; [done|]. done.
Qed.

(** *** The import script step *)


(** The script of a visit is the text of its lines. *)
Lemma script_is_lines order zone resourceName :
  buildZoneImportScriptIn order zone resourceName
  = concatLines (importLines order zone resourceName).
Proof.
  unfold buildZoneImportScriptIn, importLines.
  rewrite foldl_scriptNameStep, !concatLines_app.
  destruct (checkForResource zoneResource resourceName); cbn [negb concatLines foldr].
  - by rewrite !append_nil_r.
  - by rewrite !append_nil_r, !append_assoc.
Qed.

(** X14: the order in which Go visits the config map moves recordset
    lines of the script and does nothing else.  Every script is the
    text of the leading lines, the initialization line and the line of
    the zone when the zone is not declared, followed by the import
    lines of the recordsets that are not declared, one for every name
    and type in the order of the visit; and for two visits of the same
    entries these lists of recordset lines are permutations of each
    other. *)
Theorem import_script_lines_up_to_order order1 order2 zone resourceName :
  order1 ≡ₚ order2 →
  let leading :=
    ("terraform init" +:+ nl)
    :: (if checkForResource zoneResource resourceName
        then [] else [zoneImportLine zone resourceName]) in
  let records (order : list (string * Types)) :=
    (λ id, recordsetImportLine zone
             (createRecordsetNormalName resourceName id.1 id.2) id.1 id.2)
      <$> filter (resourceUndeclared resourceName) (identifiers order) in
  buildZoneImportScriptIn order1 zone resourceName
    = concatLines (leading ++ records order1)
  ∧ buildZoneImportScriptIn order2 zone resourceName
    = concatLines (leading ++ records order2)
  ∧ records order1 ≡ₚ records order2.
Proof.
  intros Hperm leading records.
  split; [rewrite script_is_lines; unfold importLines; by rewrite app_assoc|].
  split; [rewrite script_is_lines; unfold importLines; by rewrite app_assoc|].
  subst records. cbv beta. unfold identifiers. by rewrite Hperm.
Qed.

(** *** The command never panics *)

Lemma ends_well_ret {A} (P : State → Prop) (a : A) (Q : A → State → Prop) :
  (∀ st, P st → Q a st) → ends_well P (mret a) Q.
Proof. intros HQ st HP. by apply HQ. Qed.

Lemma ends_well_exit {A} (P : State → Prop) msg (Q : A → State → Prop) :
  ends_well P (cli_Exit msg) Q.
Proof. by intros st HP. Qed.

Lemma ends_well_bind {A B} (P : State → Prop) (c : M A) (R : A → State → Prop)
    (k : A → M B) (Q : B → State → Prop) :
  ends_well P c R → (∀ a, ends_well (R a) (k a) Q) → ends_well P (c ≫= k) Q.
Proof.
  intros Hc Hk st HP. specialize (Hc st HP).
  unfold mbind, M_bind, bind. destruct (c st) as [[a| |] st']; try done.
  by apply Hk.
Qed.

Lemma ends_well_weaken {A} (P P' : State → Prop) (c : M A) (Q Q' : A → State → Prop) :
  ends_well P' c Q' → (∀ st, P st → P' st) → (∀ a st, Q' a st → Q a st) →
  ends_well P c Q.
Proof.
  intros Hc HP HQ st Hst. specialize (Hc st (HP st Hst)).
  destruct (c st) as [[a| |] st']; try done. by apply HQ.
Qed.

Lemma ends_well_get {A} (P : State → Prop) (proj : State → A) :
  ends_well P (get proj) (λ a st, P st ∧ a = proj st).
Proof. by intros st HP. Qed.

Lemma ends_well_modify (P : State → Prop) (f : State → State) (Q : unit → State → Prop) :
  (∀ st, P st → Q tt (f st)) → ends_well P (modify f) Q.
Proof. intros HQ st HP. by apply HQ. Qed.

Lemma ends_well_createAndWrite name text msgCreate msgWrite :
  ends_well (λ _, True) (createAndWrite name text msgCreate msgWrite) (λ _ _, True).
Proof.
  intros st _. destruct (fs st !! name) as [[|content]|] eqn:Hnode.
  - by destruct (createAndWrite_directory name text msgCreate msgWrite st Hnode)
      as (st' & -> & _).
  - rewrite createAndWrite_file; [done|]. by rewrite Hnode.
  - rewrite createAndWrite_file; [done|]. by rewrite Hnode.
Qed.

(** When it ends well the inventory step has set [fullZoneImportList]. *)
Lemma ends_well_createImportListStep resourceZoneName :
  ends_well (λ _, True) (createImportListStep resourceZoneName)
    (λ _ st, is_Some (fullZoneImportList st)).
Proof.
  intros st _.
  destruct (createImportListStep_cases resourceZoneName st)
    as [(recordsets & json & st' & -> & _ & _ & _ & Hlist)|(msg & st' & -> & _)];
    [|done].
  by rewrite Hlist.
Qed.

Lemma ends_well_appendRootModuleTF text :
  ends_well (λ _, True) (appendRootModuleTF text) (λ _ _, True).
Proof.
  intros st _. unfold appendRootModuleTF. step_unfold.
  destruct (zoneTFfileHandle st) as [h|]; [|done].
  unfold File_Write. by destruct (fs st !! h_path h) as [[|content]|].
Qed.

Lemma ends_well_configFromScan (zoneObject : ZoneResponse) resourceZoneName l zoneTypeMap :
  ends_well (λ _, True)
    (configFromScan zoneObject resourceZoneName (Some l) zoneTypeMap) (λ _ _, True).
Proof.
  unfold configFromScan.
  eapply ends_well_bind; [apply ends_well_get|]. intros text.
  eapply (ends_well_bind _ _ (λ _ _, True)).
  { case_decide.
    - unfold layoutCheck.
      destruct (modularized text), (ModSegment (fetchConfig flags)); cbn [negb];
        (apply ends_well_exit || by apply ends_well_ret).
    - eapply (ends_well_bind _ _ (λ _ _, True)); [by intros st _|]. intros z.
      eapply (ends_well_bind _ _ (λ _ _, True)); [by apply ends_well_modify|].
      intros ?. destruct z.2; [apply ends_well_exit|by apply ends_well_ret]. }
  intros ?. eapply (ends_well_bind _ _ (λ _ _, True)); [by intros st _|].
  intros text'. eapply ends_well_bind; [apply ends_well_appendRootModuleTF|].
  intros [err|]; [apply ends_well_exit|].
  eapply (ends_well_bind _ _ (λ _ _, True)); [by intros st _|]. intros p.
  eapply (ends_well_bind _ _ (λ _ _, True)); [by apply ends_well_modify|]. intros ?.
  destruct p.2; [apply ends_well_exit|].
  eapply (ends_well_bind _ _ (λ _ _, True)); [by intros st _|]. intros configMap.
  destruct (MarshalIndent_configMap configMap); [apply ends_well_exit|].
  eapply ends_well_bind; [apply ends_well_createAndWrite|]. intros ?.
  eapply (ends_well_bind _ _ (λ _ _, True)); [by intros st _|]. intros cid.
  apply ends_well_createAndWrite.
Qed.

Lemma ends_well_scanAndGenerate (zoneObject : ZoneResponse) resourceZoneName l :
  ends_well (λ _, True) (scanAndGenerate zoneObject resourceZoneName (Some l))
    (λ _ _, True).
Proof.
  unfold scanAndGenerate.
  eapply (ends_well_bind _ _ (λ rc _, is_Some (r_importList rc))).
  { intros st _. unfold reconcileStep_M.
    destruct (fs st !! CreateTFFilename resourceZoneName (tfWorkPath flags))
      as [[|content]|] eqn:Hnode.
    - unfold reconcileZoneResourceTargets, os_OpenFile_create_rdwr.
      rewrite Hnode. cbn. eauto.
    - rewrite (reconcile_existing_file l resourceZoneName (fs st) content Hnode).
      cbn. eauto.
    - rewrite (reconcile_missing_file l resourceZoneName (fs st) Hnode). cbn. eauto. }
  intros rc.
  eapply (ends_well_bind _ _ (λ _ _, is_Some (r_importList rc)));
    [by apply ends_well_modify|]. intros ?.
  eapply (ends_well_bind _ _ (λ _ _, is_Some (r_importList rc)));
    [by apply ends_well_modify|]. intros ?.
  eapply (ends_well_bind _ _ (λ _ _, is_Some (r_importList rc))).
  { destruct (createImportList flags); [by apply ends_well_modify|by apply ends_well_ret]. }
  intros ?. destruct (r_err rc); [apply ends_well_exit|].
  intros st [cil Hcil]. rewrite Hcil.
  by apply (ends_well_configFromScan zoneObject resourceZoneName cil (r_typeMap rc) st).
Qed.

Lemma ends_well_createConfigStep (zoneObject : ZoneResponse) resourceZoneName :
  ends_well (λ st, createImportList flags = true → is_Some (fullZoneImportList st))
    (createConfigStep zoneObject resourceZoneName) (λ _ _, True).
Proof.
  unfold createConfigStep.
  eapply ends_well_bind; [apply ends_well_get|]. intros r.
  destruct r as [err|[l|]]; [apply ends_well_exit| |].
  - eapply (ends_well_bind _ _ (λ _ _, True)).
    + unfold ensureModuleFolder. destruct (ModSegment (fetchConfig flags));
        [|by apply ends_well_ret].
      eapply (ends_well_bind _ _ (λ _ _, True)); [by apply ends_well_modify|]. intros ?.
      eapply (ends_well_bind _ _ (λ _ _, True)).
      * intros st _. rewrite createDirectory_cases.
        by destruct (fs st !! filepath_Join (tfWorkPath flags) moduleFolder) as [[|?]|].
      * intros [|]; [by apply ends_well_ret|apply ends_well_exit].
    + intros ?. apply ends_well_scanAndGenerate.
  - intros st [Hpre Hr]. exfalso. unfold retrieveZoneImportList in Hr.
    destruct (createImportList flags).
    + destruct (Hpre eq_refl) as [l Hl]. rewrite Hl in Hr. done.
    + destruct (ConfigOnly (fetchConfig flags)); [done|].
      destruct (os_Stat _ _); [|done].
      destruct (ioutil_ReadFile _ _); [done|].
      by destruct (Unmarshal_importList _).
Qed.

Lemma ends_well_importScriptStep resourceZoneName :
  ends_well (λ _, True) (importScriptStep resourceZoneName) (λ _ _, True).
Proof.
  unfold importScriptStep.
  eapply (ends_well_bind _ _ (λ _ _, True)); [by intros st _|]. intros cfg.
  eapply (ends_well_bind _ _ (λ _ _, True)); [by apply ends_well_modify|]. intros ?.
  eapply (ends_well_bind _ _ (λ _ _, True)); [by intros st _|]. intros configMap.
  apply ends_well_createAndWrite.
Qed.

(** X15: a run of [CmdCreateZone] that has no folder to make ends well
    or with an exit of code 1, for every answer that the API, the
    renderers and the JSON library return.  Without [segmentConfig] the
    command does not call [createDirectory]; with it, the path of the
    modules folder is taken to exist, as a folder or as a file, so that
    [createDirectory] is on the branches where its definition is the
    code and nothing has to be made.  On such a run the command never
    dereferences a nil import list: the list the config step reconciles
    is the one the inventory step of the same run has set, a fresh one
    for [configOnly], or one decoded from the side file. *)
Theorem command_ends_well_or_exits_1 (st : State) :
  (ModSegment (fetchConfig flags) = true →
   is_Some (fs st !! filepath_Join (tfWorkPath flags) moduleFolder)) →
  ∃ st',
    CmdCreateZone st = (Ok tt, st') ∨ ∃ msg, CmdCreateZone st = (Exit msg 1%Z, st').
Proof.
  intros _.
  assert (Hcmd : ends_well (λ _, True) CmdCreateZone (λ _ _, True)).
  { unfold CmdCreateZone.
    destruct (GetZone (zoneName flags)) as [err|zoneObject]; [apply ends_well_exit|].
    eapply (ends_well_bind _ _ (λ _ _, True)); [by apply ends_well_modify|]. intros ?.
    eapply (ends_well_bind _ _
              (λ _ st, createImportList flags = true → is_Some (fullZoneImportList st))).
    { destruct (createImportList flags) eqn:Hflag.
      - eapply ends_well_weaken; [apply ends_well_createImportListStep|done|done].
      - by apply ends_well_ret. }
    intros ?. eapply (ends_well_bind _ _ (λ _ _, True)).
    { destruct (createConfig flags).
      - apply ends_well_createConfigStep.
      - by apply ends_well_ret. }
    intros ?. destruct (importScript flags).
    - apply ends_well_importScriptStep.
    - by apply ends_well_ret. }
  specialize (Hcmd st I).
  destruct (CmdCreateZone st) as [[[]|msg code|] st']; [|subst code|done].
  - exists st'. by left.
  - exists st'. right. by exists msg.
Qed.

(** *** What the inventory holds *)

(** Without [namesOnly] the loop ends well with the types the API
    answered for every name, over what the map held. *)
Lemma fetchRecordsets_types names acc (st st' : State) recordsets :
  NamesOnly (fetchConfig flags) = false →
  fetchRecordsets names acc st = (Ok recordsets, st') →
  ∀ zname types,
    recordsets !! zname = Some types
    ↔ (zname ∈ names ∧ GetZoneNameTypes zname (zoneName flags) = inr types)
      ∨ ((zname ∉ names) ∧ acc !! zname = Some types).
Proof.
  intros Hflag. revert acc. induction names as [|n names IH]; intros acc.
  - cbn [fetchRecordsets]. step_unfold. intros [= <- <-] zname types. split.
    + intros Hacc. right. split; [apply not_elem_of_nil|done].
    + intros [[Hin _]|[_ Hacc]]; [by apply elem_of_nil in Hin|done].
  - cbn [fetchRecordsets]. rewrite Hflag.
    destruct (GetZoneNameTypes n (zoneName flags)) as [err|types0] eqn:Hn; [done|].
    intros Hrun zname types. rewrite (IH _ Hrun zname types).
    rewrite !elem_of_cons.
    destruct (decide (zname = n)) as [->|Hne].
    + rewrite lookup_insert_eq, Hn. split.
      * intros [[Hin Ht]|[Hnin [= <-]]]; left; split; auto.
      * intros [[_ [= <-]]|[Hnot _]]; [|exfalso; apply Hnot; by left].
        destruct (decide (n ∈ names)); [left|right]; split; auto.
    + rewrite lookup_insert_ne by done. split.
      * intros [[Hin Ht]|[Hnin Hacc]]; [left|right]; split; auto.
        intros [?|?]; done.
      * intros [[[?|Hin] Ht]|[Hnot Hacc]]; [done|left|right]; split; auto.
Qed.

(** The first name whose types the API does not give ends the loop. *)
Lemma fetchRecordsets_failure names acc (st : State) zname err :
  NamesOnly (fetchConfig flags) = false →
  zname ∈ names →
  GetZoneNameTypes zname (zoneName flags) = inl err →
  fetchRecordsets names acc st = (Exit "Zone Name types retrieval failed" 1%Z, st).
Proof.
  intros Hflag Hin Herr. revert acc.
  induction names as [|n names IH]; intros acc; [by apply elem_of_nil in Hin|].
  cbn [fetchRecordsets]. rewrite Hflag.
  destruct (GetZoneNameTypes n (zoneName flags)) as [e|types] eqn:Hn; [done|].
  apply elem_of_cons in Hin as [->|Hin]; [congruence|]. by apply IH.
Qed.

(** The loop and the write that follows it, when they end well. *)
Lemma fetch_then_write_Ok resourceZoneName (st1 st' : State) :
  (recordsets ← fetchRecordsets (recordNames st1) ∅;
   writeImportList resourceZoneName recordsets) st1 = (Ok tt, st') →
  ∃ recordsets,
    fetchRecordsets (recordNames st1) ∅ st1 = (Ok recordsets, st1)
    ∧ fullZoneImportList st' = Some (mkImportList (zoneName flags) recordsets)
    ∧ recordNames st' = recordNames st1.
Proof.
  destruct (fetchRecordsets_state (recordNames st1) ∅ st1)
    as [[fetched Hfetch]|[msg Hfetch]].
  - rewrite (M_bind_Ok _ _ _ _ _ Hfetch).
    destruct (writeImportList_cases resourceZoneName fetched st1)
      as [(json & _ & _ & ->)|(msg & st2 & -> & _)]; [|done].
    intros [= <-]. by exists fetched.
  - unfold mbind, M_bind, bind. by rewrite Hfetch.
Qed.

(** X17: the inventory is what the API answered.  When the inventory
    step ends well without [namesOnly], the list in [fullZoneImportList]
    has the zone of the command and, under every record name of the run
    and no other, the types the API gave for that name; the record names
    are the ones given on the command line, and the ones of the API only
    when none was given. *)
Theorem inventory_is_what_the_api_answered resourceZoneName (st st' : State) :
  NamesOnly (fetchConfig flags) = false →
  createImportListStep resourceZoneName st = (Ok tt, st') →
  ∃ l,
    fullZoneImportList st' = Some l
    ∧ Zone l = zoneName flags
    ∧ (∀ zname types,
         Recordsets l !! zname = Some types
         ↔ zname ∈ recordNames st'
           ∧ GetZoneNameTypes zname (zoneName flags) = inr types)
    ∧ (if decide (length (recordNames st) = 0)
       then GetZoneNames (zoneName flags) = inr (recordNames st')
       else recordNames st' = recordNames st).
Proof.
  intros Hflag. unfold createImportListStep.
  erewrite M_bind_Ok by reflexivity.
  assert (Hrest : ∀ st1 : State,
    (recordsets ← fetchRecordsets (recordNames st1) ∅;
     writeImportList resourceZoneName recordsets) st1 = (Ok tt, st') →
    ∃ l,
      fullZoneImportList st' = Some l
      ∧ Zone l = zoneName flags
      ∧ (∀ zname types,
           Recordsets l !! zname = Some types
           ↔ zname ∈ recordNames st'
             ∧ GetZoneNameTypes zname (zoneName flags) = inr types)
      ∧ recordNames st' = recordNames st1).
  { intros st1 Hrun.
    destruct (fetch_then_write_Ok resourceZoneName st1 st' Hrun)
      as (recordsets & Hfetch & Hlist & Hnames).
    eexists. split; [exact Hlist|]. split; [done|]. split; [|done].
    intros zname types. cbn [Recordsets].
    rewrite (fetchRecordsets_types _ _ _ _ _ Hflag Hfetch zname types), Hnames.
    rewrite lookup_empty. split; [|by left].
    intros [Hin|[_ Hnone]]; done. }
  destruct (decide (length (recordNames st) = 0)).
  - destruct (GetZoneNames (zoneName flags)) as [err|names]; [done|].
    erewrite M_bind_Ok by reflexivity. erewrite M_bind_Ok by reflexivity.
    intros Hrun. destruct (Hrest _ Hrun) as (l & Hlist & Hzone & Htypes & Hnames).
    exists l. split; [done|]. split; [done|]. split; [done|].
    by rewrite Hnames.
  - erewrite M_bind_Ok by reflexivity. erewrite M_bind_Ok by reflexivity.
    intros Hrun. destruct (Hrest _ Hrun) as (l & Hlist & Hzone & Htypes & Hnames).
    by exists l.
Qed.

(** X18: the first error of the API aborts the inventory.  Without
    [namesOnly], when the API fails on the types of one record name of
    the run, the inventory step ends with an exit of code 1 before it
    looks at the work path: no list file is made and no list is kept,
    whatever the API answered for the other names. *)
Theorem failed_type_fetch_aborts_inventory resourceZoneName (st : State) zname err :
  NamesOnly (fetchConfig flags) = false →
  GetZoneNameTypes zname (zoneName flags) = inl err →
  (zname ∈ recordNames st →
   createImportListStep resourceZoneName st
   = (Exit "Zone Name types retrieval failed" 1%Z, st))
  ∧ (∀ names, recordNames st = [] → GetZoneNames (zoneName flags) = inr names →
       zname ∈ names →
       createImportListStep resourceZoneName st
       = (Exit "Zone Name types retrieval failed" 1%Z, set_recordNames names st)).
Proof.
  intros Hflag Herr. unfold createImportListStep. split.
  - intros Hin. erewrite M_bind_Ok by reflexivity.
    rewrite decide_False by (destruct (recordNames st); [by apply elem_of_nil in Hin|done]).
    erewrite M_bind_Ok by reflexivity. erewrite M_bind_Ok by reflexivity.
    unfold mbind, M_bind, bind.
    by rewrite (fetchRecordsets_failure _ _ _ zname err Hflag Hin Herr).
  - intros names Hnone Hnames Hin. erewrite M_bind_Ok by reflexivity.
    rewrite decide_True by (by rewrite Hnone). rewrite Hnames.
    erewrite M_bind_Ok by reflexivity. erewrite M_bind_Ok by reflexivity.
    unfold mbind, M_bind, bind. cbn [recordNames set_recordNames].
    by rewrite (fetchRecordsets_failure _ _ _ zname err Hflag Hin Herr).
Qed.

(** *** What the config step leaves *)

Lemma ends_well_createAndWrite_post (P : State → Prop) name text msgCreate msgWrite :
  ends_well P (createAndWrite name text msgCreate msgWrite)
    (λ _ st', ∃ st, P st ∧ st' = set_fs (<[name := File text]> (fs st)) st).
Proof.
  intros st HP. destruct (fs st !! name) as [[|content]|] eqn:Hnode.
  - by destruct (createAndWrite_directory name text msgCreate msgWrite st Hnode)
      as (st' & -> & _).
  - rewrite createAndWrite_file; [by exists st|]. by rewrite Hnode.
  - rewrite createAndWrite_file; [by exists st|]. by rewrite Hnode.
Qed.

Lemma ends_well_ensureModuleFolder :
  ends_well (λ _, True) ensureModuleFolder (λ _ _, True).
Proof.
  unfold ensureModuleFolder. destruct (ModSegment (fetchConfig flags));
    [|by apply ends_well_ret].
  eapply (ends_well_bind _ _ (λ _ _, True)); [by apply ends_well_modify|]. intros ?.
  eapply (ends_well_bind _ _ (λ _ _, True)).
  - intros st _. rewrite createDirectory_cases.
    by destruct (fs st !! filepath_Join (tfWorkPath flags) moduleFolder) as [[|?]|].
  - intros [|]; [by apply ends_well_ret|apply ends_well_exit].
Qed.

(** With a nil import list the scan does not end well. *)
Lemma scanAndGenerate_nil (zoneObject : ZoneResponse) resourceZoneName (st st' : State) :
  scanAndGenerate zoneObject resourceZoneName None st ≠ (Ok tt, st').
Proof.
  assert (Hscan :
    reconcileStep_M None resourceZoneName st
    = (Ok (mkReconciled None EmptyString None ∅ (Some EISDIR)), set_fs (fs st) st)
    ∨ (reconcileStep_M None resourceZoneName st).1 = Panic).
  { unfold reconcileStep_M, reconcileZoneResourceTargets, os_OpenFile_create_rdwr.
    destruct (fs st !! CreateTFFilename resourceZoneName (tfWorkPath flags))
      as [[|content]|] eqn:Hnode.
    - by left.
    - right. unfold os_Stat, File_Read. cbn [h_path h_off]. by rewrite Hnode.
    - right. unfold os_Stat, File_Read. cbn [h_path h_off].
      by rewrite lookup_insert_eq. }
  unfold scanAndGenerate. destruct Hscan as [Hscan|Hscan].
  - erewrite M_bind_Ok by exact Hscan. cbn [r_handle r_tfConfig r_importList r_err].
    erewrite M_bind_Ok by reflexivity. erewrite M_bind_Ok by reflexivity.
    destruct (createImportList flags); by erewrite M_bind_Ok by reflexivity.
  - unfold mbind at 1. unfold M_bind, bind.
    destruct (reconcileStep_M None resourceZoneName st) as [o st1].
    cbn [fst] in Hscan. by rewrite Hscan.
Qed.

(** The files of the end of the config step. *)
Lemma ends_well_configFromScan_files
    (zoneObject : ZoneResponse) resourceZoneName l zoneTypeMap :
  ends_well (λ _, True)
    (configFromScan zoneObject resourceZoneName (Some l) zoneTypeMap)
    (λ _ st',
       fs st' !! filepath_Join (tfWorkPath flags) "dnsvars.tf"
       = Some (File (dnsvarsText (contractid st')))
       ∧ (createResourceConfigFilename resourceZoneName
          ≠ filepath_Join (tfWorkPath flags) "dnsvars.tf" →
          ∃ json,
            MarshalIndent_configMap (fullZoneConfigMap st') = inr json
            ∧ fs st' !! createResourceConfigFilename resourceZoneName
              = Some (File json))).
Proof.
  unfold configFromScan.
  eapply ends_well_bind; [apply ends_well_get|]. intros text.
  eapply (ends_well_bind _ _ (λ _ _, True)).
  { case_decide.
    - unfold layoutCheck.
      destruct (modularized text), (ModSegment (fetchConfig flags)); cbn [negb];
        (apply ends_well_exit || by apply ends_well_ret).
    - eapply (ends_well_bind _ _ (λ _ _, True)); [by intros st _|]. intros z.
      eapply (ends_well_bind _ _ (λ _ _, True)); [by apply ends_well_modify|].
      intros ?. destruct z.2; [apply ends_well_exit|by apply ends_well_ret]. }
  intros ?. eapply (ends_well_bind _ _ (λ _ _, True)); [by intros st _|].
  intros text'. eapply ends_well_bind; [apply ends_well_appendRootModuleTF|].
  intros [err|]; [apply ends_well_exit|].
  eapply (ends_well_bind _ _ (λ _ _, True)); [by intros st _|]. intros p.
  eapply (ends_well_bind _ _ (λ _ st, fullZoneConfigMap st = p.1));
    [by apply ends_well_modify|]. intros ?.
  destruct p.2; [apply ends_well_exit|].
  eapply ends_well_bind; [apply ends_well_get|]. intros configMap.
  destruct (MarshalIndent_configMap configMap) as [err|json] eqn:Hjson;
    [apply ends_well_exit|].
  eapply ends_well_bind; [apply ends_well_createAndWrite_post|]. intros ?.
  eapply ends_well_bind; [apply ends_well_get|]. intros cid.
  eapply ends_well_weaken;
    [apply ends_well_createAndWrite_post|intros st Hst; exact Hst|].
  intros ? st3 (st2 & [(st1 & [Hmap ->] & ->) ->] & ->).
  cbn [fs set_fs contractid fullZoneConfigMap]. rewrite lookup_insert_eq.
  split; [done|]. intros Hne. exists json. split; [done|].
  by rewrite lookup_insert_ne, lookup_insert_eq.
Qed.

Lemma ends_well_scanAndGenerate_files (zoneObject : ZoneResponse) resourceZoneName l :
  ends_well (λ _, True) (scanAndGenerate zoneObject resourceZoneName (Some l))
    (λ _ st',
       fs st' !! filepath_Join (tfWorkPath flags) "dnsvars.tf"
       = Some (File (dnsvarsText (contractid st')))
       ∧ (createResourceConfigFilename resourceZoneName
          ≠ filepath_Join (tfWorkPath flags) "dnsvars.tf" →
          ∃ json,
            MarshalIndent_configMap (fullZoneConfigMap st') = inr json
            ∧ fs st' !! createResourceConfigFilename resourceZoneName
              = Some (File json))).
Proof.
  unfold scanAndGenerate.
  eapply (ends_well_bind _ _ (λ rc _, is_Some (r_importList rc))).
  { intros st _. unfold reconcileStep_M.
    destruct (fs st !! CreateTFFilename resourceZoneName (tfWorkPath flags))
      as [[|content]|] eqn:Hnode.
    - unfold reconcileZoneResourceTargets, os_OpenFile_create_rdwr.
      rewrite Hnode. cbn. eauto.
    - rewrite (reconcile_existing_file l resourceZoneName (fs st) content Hnode).
      cbn. eauto.
    - rewrite (reconcile_missing_file l resourceZoneName (fs st) Hnode). cbn. eauto. }
  intros rc.
  eapply (ends_well_bind _ _ (λ _ _, is_Some (r_importList rc)));
    [by apply ends_well_modify|]. intros ?.
  eapply (ends_well_bind _ _ (λ _ _, is_Some (r_importList rc)));
    [by apply ends_well_modify|]. intros ?.
  eapply (ends_well_bind _ _ (λ _ _, is_Some (r_importList rc))).
  { destruct (createImportList flags); [by apply ends_well_modify|by apply ends_well_ret]. }
  intros ?. destruct (r_err rc); [apply ends_well_exit|].
  intros st [cil Hcil]. rewrite Hcil.
  by apply (ends_well_configFromScan_files zoneObject resourceZoneName cil
              (r_typeMap rc) st).
Qed.

(** The files of a config step that ends well. *)
Lemma createConfigStep_files
    (zoneObject : ZoneResponse) resourceZoneName (st st' : State) :
  let dnsvars := filepath_Join (tfWorkPath flags) "dnsvars.tf" in
  let configFile := createResourceConfigFilename resourceZoneName in
  createConfigStep zoneObject resourceZoneName st = (Ok tt, st') →
  fs st' !! dnsvars = Some (File (dnsvarsText (contractid st')))
  ∧ (configFile ≠ dnsvars →
     ∃ json,
       MarshalIndent_configMap (fullZoneConfigMap st') = inr json
       ∧ fs st' !! configFile = Some (File json)).
Proof.
  intros dnsvars configFile. unfold createConfigStep.
  erewrite M_bind_Ok by reflexivity.
  destruct (retrieveZoneImportList resourceZoneName st) as [err|[l|]]; [done| |].
  - intros Hrun.
    assert (Hstep : ends_well (λ _, True)
              (ensureModuleFolder;; scanAndGenerate zoneObject resourceZoneName (Some l))
              (λ _ st',
                 fs st' !! dnsvars = Some (File (dnsvarsText (contractid st')))
                 ∧ (configFile ≠ dnsvars →
                    ∃ json,
                      MarshalIndent_configMap (fullZoneConfigMap st') = inr json
                      ∧ fs st' !! configFile = Some (File json)))).
    { eapply ends_well_bind; [apply ends_well_ensureModuleFolder|]. intros ?.
      apply ends_well_scanAndGenerate_files. }
    specialize (Hstep st I). by rewrite Hrun in Hstep.
  - unfold mbind at 1. unfold M_bind, bind.
    destruct (ensureModuleFolder st) as [[[]|msg code|] st1]; [|done|done].
    intros Hrun. by apply scanAndGenerate_nil in Hrun.
Qed.

(** X19: what a config step that ends well leaves in the work path: the
    variables file holds the text rendered for the contract id of the
    state, and the config file holds the JSON text of the config map the
    step ends with. *)
Theorem config_step_leaves_config_map
    (zoneObject : ZoneResponse) resourceZoneName (st st' : State) :
  let dnsvars := filepath_Join (tfWorkPath flags) "dnsvars.tf" in
  let configFile := createResourceConfigFilename resourceZoneName in
  createConfigStep zoneObject resourceZoneName st = (Ok tt, st') →
  fs st' !! dnsvars = Some (File (dnsvarsText (contractid st')))
  ∧ (configFile ≠ dnsvars →
     ∃ json,
       MarshalIndent_configMap (fullZoneConfigMap st') = inr json
       ∧ fs st' !! configFile = Some (File json)).
Proof. apply createConfigStep_files. Qed.

End Command.

(** ** An inventory run and a later config run *)

Section TwoRuns.

Variable createImportListFilename : string → string → string.
Variable GetZoneNames : string → error + list string.
Variable GetZoneNameTypes : string → string → error + Types.
Variable MarshalIndent_importList : zoneImportListStruct → error + string.
Variable Unmarshal_importList : string → error + zoneImportListStruct.

(** X10: the side file carries the inventory from one run to the next.
    When the inventory step of a run ends well, and the JSON decoder
    gives back what the encoder was given, a later run on the same work
    path, with neither the [resources] flag nor [configOnly], gets from
    [retrieveZoneImportList] the list the first run held in
    [fullZoneImportList], in every state whose file system has the side
    file as the first run left it. *)
Theorem inventory_run_then_config_run
    (first second : Flags) resourceZoneName (st st' : State) :
  let importListFilename :=
    createImportListFilename (tfWorkPath first) resourceZoneName in
  createImportListStep createImportListFilename GetZoneNames GetZoneNameTypes
    MarshalIndent_importList first resourceZoneName st = (Ok tt, st') →
  (∀ l json, MarshalIndent_importList l = inr json → Unmarshal_importList json = inr l) →
  tfWorkPath second = tfWorkPath first →
  createImportList second = false →
  ConfigOnly (fetchConfig second) = false →
  ∃ l,
    fullZoneImportList st' = Some l
    ∧ Zone l = zoneName first
    ∧ ∀ st2, fs st2 !! importListFilename = fs st' !! importListFilename →
        retrieveZoneImportList createImportListFilename Unmarshal_importList second
          resourceZoneName st2 = inr (Some l).
Proof.
  intros importListFilename Hrun Hjson Hpath Hlist Honly.
  destruct (createImportListStep_cases createImportListFilename GetZoneNames
              GetZoneNameTypes MarshalIndent_importList first resourceZoneName st)
    as [(recordsets & json & st1 & Hrun1 & Hmarshal & _ & Hfs & Hmem)
       |(msg & st1 & Hrun1 & _)];
    rewrite Hrun in Hrun1; [|discriminate Hrun1].
  injection Hrun1 as <-. fold importListFilename in Hfs.
  exists (mkImportList (zoneName first) recordsets).
  split; [exact Hmem|]. split; [reflexivity|].
  intros st2 Hsame. unfold retrieveZoneImportList.
  rewrite Hlist, Honly, Hpath. fold importListFilename.
  unfold os_Stat, ioutil_ReadFile. rewrite Hsame, Hfs, lookup_insert_eq.
  by rewrite (Hjson _ _ Hmarshal).
Qed.

Variable createUniqueRecordsetName : string → string → string → string.
Variable createRecordsetNormalName : string → string → string → string.
Variable CreateTFFilename : string → string → string.
Variable filepath_Join : string → string → string.
Variable checkForResource : string → string → bool.
Variable ZoneResponse : Type.
Variable processZone :
  ZoneResponse → string → bool → State → (string * option error) * State.
Variable processRecordsets :
  string → string → gmap string (gmap string bool) → fetchConfigStruct →
  State → (gmap string Types * option error) * State.
Variable MarshalIndent_configMap : gmap string Types → error + string.
Variable Unmarshal_configMap : string → gmap string Types * option error.
Variable dnsvarsText : string → string.


End TwoRuns.

(** ** The properties on concrete inputs *)

(** The inventory [{www: [A, AAAA]}] against a text that declares the
    [A] record. *)
Lemma substring_match_is_per_identifier_witness :
  Contains Sample.declaresA (quoted (Sample.recordsetName "example_com" "www" "A")) = true
  ∧ Contains Sample.declaresA (quoted (Sample.recordsetName "example_com" "www" "AAAA")) = false
  ∧ reconcileRecordsets Sample.recordsetName Sample.declaresA "example_com"
      {[ "www" := ["A"; "AAAA"] ]}
    = ({[ "www" := ["AAAA"] ]}, {[ "www" := {[ "AAAA" := true ]} ]}).
Proof.
  split; [reflexivity|]. split; [reflexivity|].
  apply (substring_match_is_per_identifier Sample.recordsetName Sample.declaresA
           "example_com"); reflexivity.
Defined.

(** Two names visited in the order opposite to the one of [map_to_list]. *)
Lemma residual_is_inventory_minus_declared_witness :
  let order := [("example.com", ["A"]); ("www.example.com", ["CNAME"])] in
  order ≡ₚ map_to_list Sample.twoNames
  ∧ (reconcileLoop Sample.recordsetName Sample.declaresA "example_com" order
       Sample.twoNames).1
    = ResidualSet Sample.recordsetName Sample.declaresA "example_com" Sample.twoNames.
Proof.
  intros order.
  assert (Hperm : order ≡ₚ map_to_list Sample.twoNames).
  { vm_compute. apply perm_swap. }
  split; [exact Hperm|].
  exact (proj1 (residual_is_inventory_minus_declared Sample.recordsetName
                  Sample.declaresA "example_com" Sample.twoNames order Hperm)).
Defined.

(** The first run finds [A] declared and leaves [AAAA]; the text of the
    second run has the declaration of [AAAA] after the first text, and
    the file of the second run ends with one more newline. *)
Lemma second_run_residual_is_empty_witness :
  let order := [("www", ["A"; "AAAA"])] in
  let text2 := Sample.declaresA +:+ Sample.declaresAAAA in
  let files : FS := {[ "./example_com.tf" := File (text2 +:+ nl) ]} in
  let first :=
    reconcileLoop Sample.recordsetName Sample.declaresA "example_com" order
      Sample.wwwInventory in
  let second :=
    reconcileLoop Sample.recordsetName text2 "example_com" order Sample.wwwInventory in
  order ≡ₚ map_to_list Sample.wwwInventory
  ∧ first.1 = {[ "www" := ["AAAA"] ]}
  ∧ second.1 = (λ _, []) <$> Sample.wwwInventory
  ∧ second.2 = (λ _, ∅) <$> Sample.wwwInventory
  ∧ ∃ rc,
      reconcileZoneResourceTargets Sample.recordsetName Sample.tfFilename
        Sample.configFlags (Some Sample.persisted) "example_com" files = (Ok rc, files)
      ∧ r_importList rc = Some (mkImportList "example.com" {[ "www" := [] ]}).
Proof.
  intros order text2 files first second.
  assert (Hperm : order ≡ₚ map_to_list Sample.wwwInventory).
  { unfold Sample.wwwInventory. by rewrite map_to_list_singleton. }
  assert (Hfirst : first.1 = {[ "www" := ["AAAA"] ]}) by (vm_compute; reflexivity).
  destruct (second_run_residual_is_empty Sample.recordsetName Sample.tfFilename
              Sample.configFlags Sample.declaresA Sample.declaresAAAA "example_com"
              Sample.persisted order order Hperm Hperm)
    as (Hset & Hmap & Hrun).
  { intros zname revised ntype Hl Hin.
    change (first.1 !! zname = Some revised) in Hl. rewrite Hfirst in Hl.
    apply lookup_singleton_Some in Hl as [<- <-].
    apply list_elem_of_singleton in Hin as ->. reflexivity. }
  split; [exact Hperm|]. split; [exact Hfirst|].
  split; [exact Hset|]. split; [exact Hmap|].
  destruct (Hrun files "010"%char) as (rc & Hrc & _ & _ & Hlist & _).
  { vm_compute. reflexivity. }
  exists rc. split; [exact Hrc|]. rewrite Hlist. vm_compute. reflexivity.
Defined.

(** No target file: the scan creates it empty and the inventory comes
    back whole. *)
Lemma empty_text_residual_is_inventory_witness :
  let order := [("www", ["A"; "AAAA"])] in
  let files : FS := {[ "./" := Dir ]} in
  order ≡ₚ map_to_list (Recordsets Sample.persisted)
  ∧ files !! Sample.tfFilename "example_com" "./" = None
  ∧ (reconcileLoop Sample.recordsetName EmptyString "example_com" order
       (Recordsets Sample.persisted)).1 = Recordsets Sample.persisted
  ∧ ∃ rc fs',
      reconcileZoneResourceTargets Sample.recordsetName Sample.tfFilename
        Sample.configFlags (Some Sample.persisted) "example_com" files = (Ok rc, fs')
      ∧ r_err rc = None
      ∧ r_tfConfig rc = EmptyString
      ∧ r_importList rc = Some Sample.persisted.
Proof.
  intros order files.
  assert (Hperm : order ≡ₚ map_to_list (Recordsets Sample.persisted)).
  { simpl. unfold Sample.wwwInventory. by rewrite map_to_list_singleton. }
  assert (Hnone : files !! Sample.tfFilename "example_com" "./" = None)
    by (vm_compute; reflexivity).
  destruct (empty_text_residual_is_inventory Sample.recordsetName Sample.tfFilename
              Sample.configFlags Sample.persisted "example_com" files order
              Hperm (or_introl Hnone))
    as (Hloop & _ & rc & fs' & Hrun & Hscan & _).
  split; [exact Hperm|]. split; [exact Hnone|]. split; [exact Hloop|].
  assert (Herr : r_err rc = None).
  { pose proof Hrun as Hc. vm_compute in Hc. injection Hc as Hrc _.
    rewrite <- Hrc. reflexivity. }
  destruct (Hscan Herr) as (Htext & Hlist & _).
  exists rc, fs'. split; [exact Hrun|]. split; [exact Herr|].
  split; [exact Htext|exact Hlist].
Defined.

(** Two recordsets and an undeclared zone: four lines. *)
Lemma import_script_lines_witness :
  let order := [("example.com", ["A"]); ("www.example.com", ["CNAME"])] in
  order ≡ₚ map_to_list Sample.twoNames
  ∧ size Sample.twoNames = 2
  ∧ buildZoneImportScriptIn Sample.recordsetName Sample.nothingDeclared order
      "example.com" "example_com"
    = ("terraform init" +:+ nl)
      +:+ ("terraform import akamai_dns_zone.example_com example.com" +:+ nl)
      +:+ ("terraform import akamai_dns_record.example_com_example.com_A example.com#example.com#A" +:+ nl)
      +:+ ("terraform import akamai_dns_record.example_com_www.example.com_CNAME example.com#www.example.com#CNAME" +:+ nl)
  ∧ length (importLines Sample.recordsetName Sample.nothingDeclared order
              "example.com" "example_com") = 4.
Proof.
  intros order.
  assert (Hperm : order ≡ₚ map_to_list Sample.twoNames).
  { vm_compute. apply perm_swap. }
  assert (Hsize : size Sample.twoNames = 2) by (vm_compute; reflexivity).
  destruct (import_script_lines Sample.recordsetName Sample.nothingDeclared
              "example.com" Sample.twoNames "example_com" order Hperm)
    as (Hscript & _ & Hfour).
  split; [exact Hperm|]. split; [exact Hsize|]. split.
  - rewrite Hscript. vm_compute. reflexivity.
  - apply Hfour; [reflexivity|exact Hsize|].
    intros zname typeList Hl. unfold Sample.twoNames in Hl.
    apply lookup_insert_Some in Hl as [[_ <-]|[_ Hl]]; [reflexivity|].
    apply lookup_insert_Some in Hl as [[_ <-]|[_ Hl]]; [reflexivity|].
    by rewrite lookup_empty in Hl.
Defined.



(** Both layout conflicts: [segmentConfig] against the declaration of a
    record, and the flat layout against a module block. *)
Lemma layout_conflict_is_fatal_witness :
  let flat : FS := {[ "./example_com.tf" := File Sample.declaresA ]} in
  let modular : FS := {[ "./example_com.tf" := File Sample.modularText ]} in
  let run (flags : Flags) (files : FS) :=
    CmdCreateZone Sample.recordsetName Sample.recordsetName Sample.normalize
      Sample.importListFilename Sample.tfFilename Sample.join Sample.nothingDeclared
      string id Sample.getZone Sample.getZoneNames Sample.getZoneNameTypes
      Sample.processZone Sample.processRecordsets Sample.marshalImportList
      Sample.unmarshalImportList Sample.marshalConfigMap Sample.unmarshalConfigMap
      Sample.dnsvarsText flags (Sample.stateOf files) in
  (∃ st',
     run Sample.segmentFlags flat
     = (Exit "Failed. Existing zone config is not modularized" 1%Z, st')
     ∧ fs st' !! "./example_com.tf" = Some (File Sample.declaresA))
  ∧ (∃ st',
       run Sample.configOnlyFlags modular
       = (Exit "Failed. Existing zone config is modularized" 1%Z, st')
       ∧ fs st' !! "./example_com.tf" = Some (File Sample.modularText)).
Proof.
  intros flat modular run. split.
  - destruct (layout_conflict_is_fatal Sample.recordsetName Sample.recordsetName
                Sample.normalize Sample.importListFilename Sample.tfFilename
                Sample.join Sample.nothingDeclared string id Sample.getZone
                Sample.getZoneNames Sample.getZoneNameTypes Sample.processZone
                Sample.processRecordsets Sample.marshalImportList
                Sample.unmarshalImportList Sample.marshalConfigMap
                Sample.unmarshalConfigMap Sample.dnsvarsText Sample.segmentFlags
                "ctr_1" "example_com" (Sample.stateOf flat)
                (mkImportList "example.com" ∅) Sample.declaresA)
      as [_ Hcmd].
    + reflexivity.
    + vm_compute. reflexivity.
    + vm_compute. discriminate.
    + intros _ x. vm_compute. discriminate.
    + vm_compute. reflexivity.
    + destruct Hcmd as (st' & Hrun & Hfiles); try reflexivity.
      exists st'. split; [exact Hrun|]. apply Hfiles. vm_compute. reflexivity.
  - destruct (layout_conflict_is_fatal Sample.recordsetName Sample.recordsetName
                Sample.normalize Sample.importListFilename Sample.tfFilename
                Sample.join Sample.nothingDeclared string id Sample.getZone
                Sample.getZoneNames Sample.getZoneNameTypes Sample.processZone
                Sample.processRecordsets Sample.marshalImportList
                Sample.unmarshalImportList Sample.marshalConfigMap
                Sample.unmarshalConfigMap Sample.dnsvarsText Sample.configOnlyFlags
                "ctr_1" "example_com" (Sample.stateOf modular)
                (mkImportList "example.com" ∅) Sample.modularText)
      as [_ Hcmd].
    + reflexivity.
    + vm_compute. reflexivity.
    + vm_compute. discriminate.
    + intros Hseg. vm_compute in Hseg. discriminate Hseg.
    + vm_compute. reflexivity.
    + destruct Hcmd as (st' & Hrun & Hfiles); try reflexivity.
      exists st'. split; [exact Hrun|]. apply Hfiles. vm_compute. reflexivity.
Defined.

(** An inventory run in a work path that already holds the list file of
    the zone. *)
Lemma existing_resource_list_is_fatal_witness :
  Sample.withSideFile !! Sample.importListFilename "./" "example_com"
    = Some (File Sample.sideFileText)
  ∧ createImportList Sample.inventoryFlags = true
  ∧ ∃ msg st',
      CmdCreateZone Sample.recordsetName Sample.recordsetName Sample.normalize
        Sample.importListFilename Sample.tfFilename Sample.join Sample.nothingDeclared
        string id Sample.getZone Sample.getZoneNames Sample.getZoneNameTypes
        Sample.processZone Sample.processRecordsets Sample.marshalImportList
        Sample.unmarshalImportList Sample.marshalConfigMap Sample.unmarshalConfigMap
        Sample.dnsvarsText Sample.inventoryFlags (Sample.stateOf Sample.withSideFile)
      = (Exit msg 1%Z, st')
      ∧ fs st' = Sample.withSideFile.
Proof.
  assert (Hfile : Sample.withSideFile !! Sample.importListFilename "./" "example_com"
                  = Some (File Sample.sideFileText)) by (vm_compute; reflexivity).
  split; [exact Hfile|]. split; [reflexivity|].
  apply (existing_resource_list_is_fatal Sample.recordsetName Sample.recordsetName
           Sample.normalize Sample.importListFilename Sample.tfFilename Sample.join
           Sample.nothingDeclared string id Sample.getZone Sample.getZoneNames
           Sample.getZoneNameTypes Sample.processZone Sample.processRecordsets
           Sample.marshalImportList Sample.unmarshalImportList Sample.marshalConfigMap
           Sample.unmarshalConfigMap Sample.dnsvarsText Sample.inventoryFlags
           "example_com" (Sample.stateOf Sample.withSideFile)
           (File Sample.sideFileText) Hfile); reflexivity.
Defined.

(** C3: the scan does not return the raw text of a file that exists.
    The target file ends with the quoted name of the [A] record of
    [www]; the text returned is the file without its last byte, the
    closing quote, so it differs from the content of the file, and the
    record that the file declares stays in the import list. *)
Theorem scan_text_misses_last_byte :
  let files : FS := {[ "./example_com.tf" := File Sample.endsWithQuotedA ]} in
  Contains Sample.endsWithQuotedA
    (quoted (Sample.recordsetName "example_com" "www" "A")) = true
  ∧ ∃ rc,
      reconcileZoneResourceTargets Sample.recordsetName Sample.tfFilename
        Sample.configFlags (Some Sample.persisted) "example_com" files = (Ok rc, files)
      ∧ r_err rc = None
      ∧ r_tfConfig rc +:+ dquote = Sample.endsWithQuotedA
      ∧ r_tfConfig rc ≠ Sample.endsWithQuotedA
      ∧ r_importList rc = Some Sample.persisted.
Proof.
  intros files. split; [reflexivity|].
  eexists. split; [vm_compute; reflexivity|].
  split; [reflexivity|]. split; [reflexivity|]. split; [|reflexivity].
  intros Heq. apply (f_equal String.length) in Heq. vm_compute in Heq. discriminate Heq.
Qed.

(** C8: the prior content of the target file is not kept as a prefix.
    The command is run for the config step alone, on a work path that
    holds the target file with the declaration of the [A] record, with a
    renderer of recordsets that emits the declaration of the [AAAA]
    record the way the package writes to the root file, with
    [appendRootModuleTF].  The config step scans the file, writes the
    scanned text through the handle (line 812), and the declaration is
    written through the same handle: the first write changes nothing and
    leaves the handle on the last byte of the file, the second starts on
    that byte.  When the file ends with the closing brace of the
    declaration the brace is gone; when it ends with a newline the
    newline is gone.  In both runs the command succeeds and the old
    content is not a prefix of the new one. *)
Theorem emitted_text_overwrites_last_byte :
  let emit (zone resourceZoneName : string)
        (zoneTypeMap : gmap string (gmap string bool)) (cfg : fetchConfigStruct)
        (st : State) : (gmap string Types * option error) * State :=
    match appendRootModuleTF Sample.declaresAAAA st with
    | (Ok (Some err), st') => ((∅, Some err), st')
    | (_, st') => ((∅, None), st')
    end in
  let run (content : string) : Outcome unit * State :=
    CmdCreateZone Sample.recordsetName Sample.recordsetName Sample.normalize
      Sample.importListFilename Sample.tfFilename Sample.join Sample.nothingDeclared
      string id Sample.getZone Sample.getZoneNames Sample.getZoneNameTypes
      Sample.processZone emit Sample.marshalImportList
      Sample.unmarshalImportList Sample.marshalConfigMap Sample.unmarshalConfigMap
      Sample.dnsvarsText Sample.configOnlyFlags
      (Sample.stateOf (<["./" := Dir]> {[ "./example_com.tf" := File content ]})) in
  let body := "resource " +:+ quoted "akamai_dns_record" +:+ " "
                +:+ quoted "example_com_www_A" +:+ " {" in
  Sample.declaresA_noNewline = body +:+ "}"
  ∧ (∃ st', run Sample.declaresA_noNewline = (Ok tt, st')
       ∧ fs st' !! "./example_com.tf" = Some (File (body +:+ Sample.declaresAAAA))
       ∧ HasPrefix (body +:+ Sample.declaresAAAA) Sample.declaresA_noNewline = false)
  ∧ Sample.declaresA = body +:+ "}" +:+ nl
  ∧ (∃ st', run Sample.declaresA = (Ok tt, st')
       ∧ fs st' !! "./example_com.tf"
         = Some (File (body +:+ "}" +:+ Sample.declaresAAAA))
       ∧ HasPrefix (body +:+ "}" +:+ Sample.declaresAAAA) Sample.declaresA = false).
Proof.
  intros emit run body. split; [reflexivity|]. split.
  - eexists. split; [vm_compute; reflexivity|].
    split; [vm_compute; reflexivity|]. vm_compute. reflexivity.
  - split; [reflexivity|].
    eexists. split; [vm_compute; reflexivity|].
    split; [vm_compute; reflexivity|]. vm_compute. reflexivity.
Qed.

(** ** Further properties on concrete inputs *)

(** The inventory [{www: [A, AAAA]}] against a text that declares the
    [A] record: both results keep the name [www]. *)
Lemma revised_list_and_type_map_agree_witness :
  let order := [("www", ["A"; "AAAA"])] in
  let r :=
    reconcileLoop Sample.recordsetName Sample.declaresA "example_com" order
      Sample.wwwInventory in
  order ≡ₚ map_to_list Sample.wwwInventory
  ∧ dom r.1 = dom Sample.wwwInventory
  ∧ dom r.2 = dom Sample.wwwInventory
  ∧ ∀ typeMap, r.2 !! "www" = Some typeMap →
      typeMap !! "A" = None ∧ typeMap !! "AAAA" = Some true.
Proof.
  intros order r.
  assert (Hperm : order ≡ₚ map_to_list Sample.wwwInventory).
  { unfold Sample.wwwInventory. by rewrite map_to_list_singleton. }
  destruct (revised_list_and_type_map_agree Sample.recordsetName Sample.declaresA
              "example_com" Sample.wwwInventory order Hperm)
    as (Hdom1 & Hdom2 & Hagree).
  split; [exact Hperm|]. split; [exact Hdom1|]. split; [exact Hdom2|].
  intros typeMap Hmap.
  assert (Hrevised : r.1 !! "www" = Some ["AAAA"]) by (vm_compute; reflexivity).
  split.
  - rewrite (Hagree "www" ["AAAA"] typeMap Hrevised Hmap "A"). reflexivity.
  - rewrite (Hagree "www" ["AAAA"] typeMap Hrevised Hmap "AAAA"). reflexivity.
Defined.

(** The target file holds the declaration of the [A] record and the
    handle is at its end: the declaration of [AAAA] goes after it. *)
Lemma appendRootModuleTF_at_end_witness :
  let files : FS := {[ "./example_com.tf" := File Sample.declaresA ]} in
  let st :=
    set_zoneTFfileHandle
      (Some (mkHandle "./example_com.tf" (String.length Sample.declaresA)))
      (Sample.stateOf files) in
  ∃ st',
    appendRootModuleTF Sample.declaresAAAA st = (Ok None, st')
    ∧ fs st' !! "./example_com.tf"
      = Some (File (Sample.declaresA +:+ Sample.declaresAAAA)).
Proof.
  intros files st.
  destruct (appendRootModuleTF_at_end st "./example_com.tf" Sample.declaresA
              Sample.declaresAAAA)
    as (st' & Hrun & Hfs & _).
  - vm_compute. reflexivity.
  - reflexivity.
  - exists st'. split; [exact Hrun|]. rewrite Hfs. apply lookup_insert_eq.
Defined.

(** The file of the module of [www.example.com] exists. *)
Lemma createModuleTF_keeps_existing_witness :
  let file := "././modules/www_example_com/www_example_com.tf" in
  let st := Sample.stateOf {[ file := File "zonename = local.zone" ]} in
  ∃ err st',
    createModuleTF Sample.normalize Sample.joinPath Sample.join3 id Sample.configFlags
      "www.example.com" "name = local.name" st = (Ok (Some err), st')
    ∧ fs st' !! file = Some (File "zonename = local.zone").
Proof.
  intros file st.
  destruct (createModuleTF_keeps_existing Sample.normalize Sample.joinPath Sample.join3
              id Sample.configFlags "www.example.com" "name = local.name" st
              (File "zonename = local.zone"))
    as (err & st' & Hrun & Hkeep).
  - vm_compute. lia.
  - vm_compute. reflexivity.
  - exists err, st'. split; [exact Hrun|]. apply Hkeep. vm_compute. reflexivity.
Defined.

(** The first call for [www.example.com] in an empty work path makes
    the folder and the file; a second call leaves them. *)
Lemma createModuleTF_once_witness :
  let folder := "././modules/www_example_com" in
  let file := "././modules/www_example_com/www_example_com.tf" in
  let st1 :=
    Sample.stateOf (<[file := File "name = local.name"]> (<[folder := Dir]> ∅)) in
  createModuleTF Sample.normalize Sample.joinPath Sample.join3 id Sample.configFlags
    "www.example.com" "name = local.name" (Sample.stateOf ∅) = (Ok None, st1)
  ∧ fs st1 !! file = Some (File "name = local.name")
  ∧ ∃ err,
      createModuleTF Sample.normalize Sample.joinPath Sample.join3 id Sample.configFlags
        "www.example.com" "name = other" st1 = (Ok (Some err), st1).
Proof.
  intros folder file st1.
  assert (Hrun : createModuleTF Sample.normalize Sample.joinPath Sample.join3 id
                   Sample.configFlags "www.example.com" "name = local.name"
                   (Sample.stateOf ∅) = (Ok None, st1))
    by (vm_compute; reflexivity).
  destruct (createModuleTF_once Sample.normalize Sample.joinPath Sample.join3 id
              Sample.configFlags "www.example.com" "name = local.name"
              (Sample.stateOf ∅) st1 Hrun)
    as [Hfile Hagain].
  split; [exact Hrun|]. split; [exact Hfile|]. apply Hagain.
Defined.

(** Two names with [namesOnly]: no type is kept, though the API of the
    examples has two for every name. *)
Lemma namesOnly_inventory_has_no_types_witness :
  let st := Sample.stateOf {[ "./" := Dir ]} in
  NamesOnly (fetchConfig Sample.namesOnlyFlags) = true
  ∧ Sample.getZoneNameTypes "www" "example.com" = inr ["A"; "AAAA"]
  ∧ ∃ recordsets,
      fetchRecordsets Sample.getZoneNameTypes Sample.namesOnlyFlags ["www"; "mail"] ∅ st
      = (Ok recordsets, st)
      ∧ recordsets !! "www" = Some []
      ∧ recordsets !! "mail" = Some [].
Proof.
  intros st. split; [reflexivity|]. split; [reflexivity|].
  destruct (namesOnly_inventory_has_no_types Sample.getZoneNameTypes
              Sample.namesOnlyFlags ["www"; "mail"] st)
    as (recordsets & Hrun & _ & Hempty); [reflexivity|].
  exists recordsets. split; [exact Hrun|].
  split; apply Hempty; rewrite !elem_of_cons; auto.
Defined.

(** A config run in a work path that has no side file. *)
Lemma config_step_needs_inventory_witness :
  let st := Sample.stateOf {[ "./" := Dir ]} in
  createConfigStep Sample.recordsetName Sample.importListFilename Sample.tfFilename
    Sample.join string Sample.processZone Sample.processRecordsets
    Sample.unmarshalImportList Sample.marshalConfigMap Sample.dnsvarsText
    Sample.configFlags "ctr_1" "example_com" st
  = (Exit "Failed to read json zone resources file" 1%Z, st).
Proof.
  intros st.
  apply (config_step_needs_inventory Sample.recordsetName Sample.importListFilename
           Sample.tfFilename Sample.join string Sample.processZone
           Sample.processRecordsets Sample.unmarshalImportList Sample.marshalConfigMap
           Sample.dnsvarsText Sample.configFlags "ctr_1" "example_com" st);
    [reflexivity|reflexivity|].
  left. vm_compute. reflexivity.
Defined.

(** A segmented config run in a work path where [modules] is a regular
    file. *)
Lemma modules_folder_in_the_way_witness :
  let files : FS := <["./" := Dir]> {[ "./modules" := File "notes" ]} in
  ∃ st',
    createConfigStep Sample.recordsetName Sample.importListFilename Sample.tfFilename
      Sample.join string Sample.processZone Sample.processRecordsets
      Sample.unmarshalImportList Sample.marshalConfigMap Sample.dnsvarsText
      Sample.segmentFlags "ctr_1" "example_com" (Sample.stateOf files)
    = (Exit "Failed to create modules folder." 1%Z, st')
    ∧ fs st' = files.
Proof.
  intros files.
  apply (modules_folder_in_the_way Sample.recordsetName Sample.importListFilename
           Sample.tfFilename Sample.join string Sample.processZone
           Sample.processRecordsets Sample.unmarshalImportList Sample.marshalConfigMap
           Sample.dnsvarsText Sample.segmentFlags "ctr_1" "example_com"
           (Sample.stateOf files) (Some (mkImportList "example.com" ∅)) "notes");
    [reflexivity|reflexivity|].
  vm_compute. reflexivity.
Defined.

(** A folder has the name of the target file. *)
Lemma target_is_a_folder_witness :
  let files : FS := <["./" := Dir]> {[ "./example_com.tf" := Dir ]} in
  ∃ st',
    scanAndGenerate Sample.recordsetName Sample.tfFilename Sample.join string
      Sample.processZone Sample.processRecordsets Sample.marshalConfigMap
      Sample.dnsvarsText Sample.configFlags "ctr_1" "example_com"
      (Some Sample.persisted) (Sample.stateOf files)
    = (Exit "Failed to open/create zone config file." 1%Z, st')
    ∧ fs st' = files.
Proof.
  intros files.
  apply (target_is_a_folder Sample.recordsetName Sample.tfFilename Sample.join string
           Sample.processZone Sample.processRecordsets Sample.marshalConfigMap
           Sample.dnsvarsText Sample.configFlags "ctr_1" "example_com"
           (Sample.stateOf files) (Some Sample.persisted)).
  vm_compute. reflexivity.
Defined.


(** Two names visited in the two possible orders: the two recordset
    lines change places. *)
Lemma import_script_lines_up_to_order_witness :
  let order1 := [("example.com", ["A"]); ("www.example.com", ["CNAME"])] in
  let order2 := [("www.example.com", ["CNAME"]); ("example.com", ["A"])] in
  let init := "terraform init" +:+ nl in
  let zone := "terraform import akamai_dns_zone.example_com example.com" +:+ nl in
  let lineA :=
    "terraform import akamai_dns_record.example_com_example.com_A example.com#example.com#A"
      +:+ nl in
  let lineCNAME :=
    "terraform import akamai_dns_record.example_com_www.example.com_CNAME example.com#www.example.com#CNAME"
      +:+ nl in
  order1 ≡ₚ order2
  ∧ buildZoneImportScriptIn Sample.recordsetName Sample.nothingDeclared order1
      "example.com" "example_com" = concatLines [init; zone; lineA; lineCNAME]
  ∧ buildZoneImportScriptIn Sample.recordsetName Sample.nothingDeclared order2
      "example.com" "example_com" = concatLines [init; zone; lineCNAME; lineA].
Proof.
  intros order1 order2 init zone lineA lineCNAME.
  assert (Hperm : order1 ≡ₚ order2) by apply perm_swap.
  split; [exact Hperm|].
  destruct (import_script_lines_up_to_order Sample.recordsetName Sample.nothingDeclared
              order1 order2 "example.com" "example_com" Hperm)
    as (H1 & H2 & _).
  split.
  - rewrite H1. vm_compute. reflexivity.
  - rewrite H2. vm_compute. reflexivity.
Defined.

(** An inventory run in a work path with no side file, then a config
    run on the same work path: the config run gets the inventory
    [{www: [A, AAAA]}] of the first run. *)
Lemma inventory_run_then_config_run_witness :
  let st := Sample.stateOf {[ "./" := Dir ]} in
  let run :=
    createImportListStep Sample.importListFilename Sample.getZoneNames
      Sample.getZoneNameTypes Sample.marshalPersisted Sample.inventoryFlags
      "example_com" st in
  run.1 = Ok tt
  ∧ fullZoneImportList run.2 = Some Sample.persisted
  ∧ retrieveZoneImportList Sample.importListFilename Sample.unmarshalImportList
      Sample.configFlags "example_com" (Sample.stateOf (fs run.2))
    = inr (Some Sample.persisted).
Proof.
  intros st run.
  assert (Hrun : createImportListStep Sample.importListFilename Sample.getZoneNames
                   Sample.getZoneNameTypes Sample.marshalPersisted
                   Sample.inventoryFlags "example_com" st = (Ok tt, run.2))
    by (vm_compute; reflexivity).
  assert (Hheld : fullZoneImportList run.2 = Some Sample.persisted)
    by (vm_compute; reflexivity).
  destruct (inventory_run_then_config_run Sample.importListFilename
              Sample.getZoneNames Sample.getZoneNameTypes Sample.marshalPersisted
              Sample.unmarshalImportList Sample.inventoryFlags Sample.configFlags
              "example_com" st run.2 Hrun)
    as (l & Hmem & _ & Hget); try reflexivity.
  - intros [zone recordsets] json. unfold Sample.marshalPersisted.
    case_decide as Hl; [|discriminate]. cbn [Zone Recordsets] in Hl.
    destruct Hl as [-> ->]. intros [= <-]. reflexivity.
  - split; [vm_compute; reflexivity|]. split; [exact Hheld|].
    rewrite (Hget (Sample.stateOf (fs run.2)) eq_refl). congruence.
Defined.

(** The inventory run of the examples: the list has the name [www] of
    the API with its two types. *)
Lemma inventory_is_what_the_api_answered_witness :
  let st := Sample.stateOf {[ "./" := Dir ]} in
  let run :=
    createImportListStep Sample.importListFilename Sample.getZoneNames
      Sample.getZoneNameTypes Sample.marshalImportList Sample.inventoryFlags
      "example_com" st in
  run.1 = Ok tt
  ∧ ∃ l,
      fullZoneImportList run.2 = Some l
      ∧ Zone l = "example.com"
      ∧ Recordsets l !! "www" = Some ["A"; "AAAA"]
      ∧ Recordsets l !! "mail" = None.
Proof.
  intros st run.
  assert (Hrun : createImportListStep Sample.importListFilename Sample.getZoneNames
                   Sample.getZoneNameTypes Sample.marshalImportList
                   Sample.inventoryFlags "example_com" st = (Ok tt, run.2))
    by (vm_compute; reflexivity).
  destruct (inventory_is_what_the_api_answered Sample.importListFilename
              Sample.getZoneNames Sample.getZoneNameTypes Sample.marshalImportList
              Sample.inventoryFlags "example_com" st run.2 eq_refl Hrun)
    as (l & Hlist & Hzone & Htypes & Hnames).
  split; [vm_compute; reflexivity|].
  exists l. split; [exact Hlist|]. split; [exact Hzone|].
  assert (Hrec : recordNames run.2 = ["www"]) by (vm_compute; reflexivity).
  split.
  - apply Htypes. rewrite Hrec. split; [apply list_elem_of_singleton|]; reflexivity.
  - destruct (Recordsets l !! "mail") as [types|] eqn:Hmail; [|reflexivity].
    apply Htypes in Hmail as [Hin _]. rewrite Hrec in Hin.
    apply list_elem_of_singleton in Hin. discriminate Hin.
Defined.

(** The names [www] and [mail] on the command line, and an API that has
    no types for [mail]. *)
Lemma failed_type_fetch_aborts_inventory_witness :
  let st := set_recordNames ["www"; "mail"] (Sample.stateOf {[ "./" := Dir ]}) in
  Sample.failingTypes "www" "example.com" = inr ["A"]
  ∧ createImportListStep Sample.importListFilename Sample.getZoneNames
      Sample.failingTypes Sample.marshalImportList Sample.inventoryFlags
      "example_com" st
    = (Exit "Zone Name types retrieval failed" 1%Z, st).
Proof.
  intros st. split; [reflexivity|].
  apply (proj1 (failed_type_fetch_aborts_inventory Sample.importListFilename
                  Sample.getZoneNames Sample.failingTypes Sample.marshalImportList
                  Sample.inventoryFlags "example_com" st "mail" (Err "404 Not Found")
                  eq_refl eq_refl)).
  cbn [recordNames set_recordNames st]. rewrite !elem_of_cons. auto.
Defined.

(** A config run with [configOnly] in an empty work path. *)
Lemma config_step_leaves_config_map_witness :
  let st := Sample.stateOf {[ "./" := Dir ]} in
  let run :=
    createConfigStep Sample.recordsetName Sample.importListFilename Sample.tfFilename
      Sample.join string Sample.processZone Sample.processRecordsets
      Sample.unmarshalImportList Sample.marshalEmptyMap Sample.dnsvarsText
      Sample.configOnlyFlags "ctr_1" "example_com" st in
  run.1 = Ok tt
  ∧ fs run.2 !! "./dnsvars.tf" = Some (File "contractid = ")
  ∧ fs run.2 !! "./example_com_zoneconfig.json" = Some (File "{}").
Proof.
  intros st run.
  assert (Hrun : createConfigStep Sample.recordsetName Sample.importListFilename
                   Sample.tfFilename Sample.join string Sample.processZone
                   Sample.processRecordsets Sample.unmarshalImportList
                   Sample.marshalEmptyMap Sample.dnsvarsText Sample.configOnlyFlags
                   "ctr_1" "example_com" st = (Ok tt, run.2))
    by (vm_compute; reflexivity).
  destruct (config_step_leaves_config_map Sample.recordsetName
              Sample.importListFilename Sample.tfFilename Sample.join string
              Sample.processZone Sample.processRecordsets Sample.unmarshalImportList
              Sample.marshalEmptyMap Sample.dnsvarsText Sample.configOnlyFlags
              "ctr_1" "example_com" st run.2 Hrun)
    as [Hvars Hfile].
  split; [vm_compute; reflexivity|]. split.
  - etrans; [exact Hvars|]. vm_compute. reflexivity.
  - destruct Hfile as (json & Hjson & Hheld); [vm_compute; discriminate|].
    etrans; [exact Hheld|].
    assert (Hmap : fullZoneConfigMap run.2 = ∅) by (vm_compute; reflexivity).
    rewrite Hmap in Hjson. vm_compute in Hjson. by injection Hjson as <-.
Defined.


(** A run of the three steps with [segmentConfig], in a work path that
    has its modules folder: the command ends well. *)
Lemma command_ends_well_or_exits_1_witness :
  let st := Sample.stateOf (<["./" := Dir]> {[ "./modules" := Dir ]}) in
  let run :=
    CmdCreateZone Sample.recordsetName Sample.recordsetName Sample.normalize
      Sample.importListFilename Sample.tfFilename Sample.join Sample.nothingDeclared
      string id Sample.getZone Sample.getZoneNames Sample.getZoneNameTypes
      Sample.processZone Sample.processRecordsets Sample.marshalImportList
      Sample.unmarshalImportList Sample.marshalConfigMap Sample.unmarshalConfigMap
      Sample.dnsvarsText Sample.allFlags st in
  ModSegment (fetchConfig Sample.allFlags) = true
  ∧ fs st !! Sample.join (tfWorkPath Sample.allFlags) moduleFolder = Some Dir
  ∧ (∃ st', run = (Ok tt, st') ∨ ∃ msg, run = (Exit msg 1%Z, st'))
  ∧ run.1 = Ok tt.
Proof.
  intros st run. split; [reflexivity|].
  assert (Hfolder : fs st !! Sample.join (tfWorkPath Sample.allFlags) moduleFolder
                    = Some Dir) by (vm_compute; reflexivity).
  split; [exact Hfolder|]. split; [|vm_compute; reflexivity].
  apply (command_ends_well_or_exits_1 Sample.recordsetName Sample.recordsetName
           Sample.normalize Sample.importListFilename Sample.tfFilename Sample.join
           Sample.nothingDeclared string id Sample.getZone Sample.getZoneNames
           Sample.getZoneNameTypes Sample.processZone Sample.processRecordsets
           Sample.marshalImportList Sample.unmarshalImportList Sample.marshalConfigMap
           Sample.unmarshalConfigMap Sample.dnsvarsText Sample.allFlags st).
  intros _. rewrite Hfolder. by eexists.
Defined.

